(** * tlsprofiler: a shallow embedding of [tlsprofiler/__init__.py]

    The module checks the configuration of a TLS server, as reported by the
    sslyze scanner, against one of Mozilla's TLS configuration profiles.
    The embedding follows the Python source method by method:

    - [Py] holds what the source takes from the Python runtime: exceptions,
      [str.lower], f-string formatting of integers, a local variable that is
      first a list and later a generator, [datetime] subtraction;
    - [Cryptography] and [Sslyze] declare the parts of the two libraries the
      source inspects (they are interfaces: the data the code reads);
    - [TLSProfilerResult] and [TLSProfiler] are the two classes of the
      source.  Methods of [TLSProfiler] that scan, set attributes or raise
      run in a state-and-exception monad over the object [self]. *)

From stdpp Require Import gmap strings list pretty sorting.

Open Scope string_scope.
Open Scope list_scope.
Open Scope Z_scope.

(** ** The Python runtime *)

Module Py.

(** The exceptions the modelled code can raise, or let through. *)
Inductive exn : Type :=
| AttributeError (msg : string)
| IndexError (msg : string)
| KeyError (key : string)
| TypeError (msg : string)
| ScannerError (msg : string).

(** [str.lower()] on ASCII text: the letters [A]..[Z] move to [a]..[z]. *)
Definition ascii_lower (c : Ascii.ascii) : Ascii.ascii :=
  let n := Ascii.N_of_ascii c in
  if ((65 <=? n) && (n <=? 90))%N then Ascii.ascii_of_N (n + 32) else c.

Fixpoint lower (s : string) : string :=
  match s with
  | EmptyString => EmptyString
  | String c s' => String (ascii_lower c) (lower s')
  end.

(** The one-character string holding a double quote (code 34). *)
Definition dquote : string :=
  String (Ascii.Ascii false true false false false true false false) EmptyString.

(** [sep.join(items)]. *)
Definition join (sep : string) (items : list string) : string :=
  String.concat sep items.

(** [f"{n}"] for an [int]. *)
Definition format_int (n : Z) : string := pretty n.

(** A local variable bound to a list of strings, or to a generator
    expression yielding strings.  Only a list has [append] and [len]. *)
Inductive seq_value : Type :=
| PyList (items : list string)
| PyGenerator (pending : list string).

Definition append (v : seq_value) (x : string) : exn + seq_value :=
  match v with
  | PyList items => inr (PyList (items ++ [x]))
  | PyGenerator _ =>
      inl (AttributeError "'generator' object has no attribute 'append'")
  end.

Definition len (v : seq_value) : exn + nat :=
  match v with
  | PyList items => inr (length items)
  | PyGenerator _ =>
      inl (TypeError "object of type 'generator' has no len()")
  end.

(** Iterating a generator hands out what is pending. *)
Definition iterate (v : seq_value) : list string :=
  match v with
  | PyList items => items
  | PyGenerator pending => pending
  end.

(** A naive [datetime], counted in microseconds, and the [timedelta]
    between two of them.  [timedelta.days] is the floor of the difference
    in days: the remainder is kept non-negative in [seconds] and
    [microseconds]. *)
Definition datetime : Type := Z.
Definition timedelta : Type := Z.

Definition microseconds_per_day : Z := 86400 * 1000000.

Definition datetime_sub (a b : datetime) : timedelta := a - b.
Definition days (d : timedelta) : Z := d `div` microseconds_per_day.

(** The truth value of [None], of a number and of a list. *)
Definition truthy_int (v : option Z) : bool :=
  match v with
  | None => false
  | Some n => negb (n =? 0)
  end.

Definition truthy_list {A} (v : option (list A)) : bool :=
  match v with
  | None | Some [] => false
  | Some (_ :: _) => true
  end.

(** [x in xs] for a list of strings. *)
Definition contains (xs : list string) (x : string) : bool :=
  bool_decide (x ∈ xs).

End Py.

(** ** cryptography: public keys and certificates *)

Module Cryptography.

(** The public-key classes of [cryptography.hazmat.primitives.asymmetric]
    that the source tests with [isinstance]. *)
Inductive KeyClass : Type :=
| rsa_RSAPublicKey
| ec_EllipticCurvePublicKey
| ed25519_Ed25519PublicKey
| ed448_Ed448PublicKey
| dsa_DSAPublicKey.

(** A public-key object: the class it belongs to, with the attributes the
    source reads.  [OtherPublicKey] stands for any object of none of the
    five classes. *)
Inductive PublicKey : Type :=
| RSAPublicKey (key_size : Z)
| EllipticCurvePublicKey (curve_name : string)
| Ed25519PublicKey
| Ed448PublicKey
| DSAPublicKey (key_size : Z)
| OtherPublicKey.

Definition isinstance (k : PublicKey) (c : KeyClass) : bool :=
  match k, c with
  | RSAPublicKey _, rsa_RSAPublicKey => true
  | EllipticCurvePublicKey _, ec_EllipticCurvePublicKey => true
  | Ed25519PublicKey, ed25519_Ed25519PublicKey => true
  | Ed448PublicKey, ed448_Ed448PublicKey => true
  | DSAPublicKey _, dsa_DSAPublicKey => true
  | _, _ => false
  end.

(** [pub_key.key_size] and [pub_key.curve.name], read only behind the
    matching [isinstance] test. *)
Definition key_size (k : PublicKey) : Z :=
  match k with
  | RSAPublicKey n | DSAPublicKey n => n
  | _ => 0
  end.

Definition curve_name (k : PublicKey) : string :=
  match k with
  | EllipticCurvePublicKey c => c
  | _ => ""
  end.

Record Certificate : Type := {
  not_valid_before : Py.datetime;
  not_valid_after : Py.datetime;
  public_key : PublicKey;
  (** [signature_algorithm_oid._name] *)
  signature_algorithm_oid_name : string
}.

End Cryptography.

(** ** sslyze: scan commands and their results *)

Module Sslyze.
Import Cryptography.

Inductive CipherSuiteScanCommand : Type :=
| Sslv20ScanCommand
| Sslv30ScanCommand
| Tlsv10ScanCommand
| Tlsv11ScanCommand
| Tlsv12ScanCommand
| Tlsv13ScanCommand.

Inductive ScanCommand : Type :=
| CipherSuites (c : CipherSuiteScanCommand)
| CertificateInfoScanCommand
| HeartbleedScanCommand
| OpenSslCcsInjectionScanCommand
| RobotScanCommand.

Record TempKeyInfo : Type := {
  key_type : string;
  temp_key_size : Z
}.

Record AcceptedCipherSuite : Type := {
  openssl_name : string;
  dh_info : option TempKeyInfo
}.

Record CipherSuiteScanResult : Type := {
  accepted_cipher_list : list AcceptedCipherSuite
}.

Record PathValidationResult : Type := {
  was_validation_successful : bool;
  verify_string : string;
  trust_store_name : string
}.

Record PathValidationError : Type := {
  error_message : string
}.

Record CertificateInfoScanResult : Type := {
  received_certificate_chain : list Certificate;
  ocsp_response_is_trusted : bool;
  path_validation_result_list : list PathValidationResult;
  path_validation_error_list : list PathValidationError;
  leaf_certificate_subject_matches_hostname : bool;
  received_chain_has_valid_order : bool;
  verified_chain_has_sha1_signature : bool;
  verified_chain_has_legacy_symantec_anchor : bool;
  leaf_certificate_signed_certificate_timestamps_count : Z
}.

Record HeartbleedScanResult : Type := {
  is_vulnerable_to_heartbleed : bool
}.

Record OpenSslCcsInjectionScanResult : Type := {
  is_vulnerable_to_ccs_injection : bool
}.

Inductive RobotScanResultEnum : Type :=
| VULNERABLE_WEAK_ORACLE
| VULNERABLE_STRONG_ORACLE
| NOT_VULNERABLE_NO_ORACLE
| NOT_VULNERABLE_RSA_NOT_SUPPORTED
| UNKNOWN_INCONSISTENT_RESULTS.

#[global] Instance RobotScanResultEnum_eq_dec : EqDecision RobotScanResultEnum.
Proof. solve_decision. Defined.

Record RobotScanResult : Type := {
  robot_result_enum : RobotScanResultEnum
}.

(** The type of the result is fixed by the command. *)
Definition ScanResult (c : ScanCommand) : Type :=
  match c with
  | CipherSuites _ => CipherSuiteScanResult
  | CertificateInfoScanCommand => CertificateInfoScanResult
  | HeartbleedScanCommand => HeartbleedScanResult
  | OpenSslCcsInjectionScanCommand => OpenSslCcsInjectionScanResult
  | RobotScanCommand => RobotScanResult
  end.

(** What [ServerConnectivityTester.perform] yields: a handle on the
    server, or a [ServerConnectivityError] carrying a message. *)
Record ServerConnectivityInfo : Type := {
  hostname : string;
  port : Z
}.

Record ServerConnectivityError : Type := {
  error_message_of : string
}.

(** The scanner is the outside world: for a server handle and a command
    it gives a result, or fails with an exception of its own. *)
Record SynchronousScanner : Type := {
  run_scan_command :
    option ServerConnectivityInfo -> forall c : ScanCommand, Py.exn + ScanResult c
}.

End Sslyze.

Import Cryptography Sslyze.

(** ** class TLSProfilerResult *)

Record TLSProfilerResult : Type := {
  validation_errors : list string;
  profile_errors : list string;
  vulnerability_errors : list string;
  validated : bool;
  profile_matched : bool;
  vulnerable : bool;
  all_ok : bool
}.

(** [TLSProfilerResult.__init__] *)
Definition TLSProfilerResult_init
    (validation_errors profile_errors vulnerability_errors : list string)
    : TLSProfilerResult :=
  let validated := (length validation_errors =? 0)%nat in
  let profile_matched := (length profile_errors =? 0)%nat in
  let vulnerable := (0 <? length vulnerability_errors)%nat in
  {| validation_errors := validation_errors;
     profile_errors := profile_errors;
     vulnerability_errors := vulnerability_errors;
     validated := validated;
     profile_matched := profile_matched;
     vulnerable := vulnerable;
     all_ok := validated && profile_matched && negb vulnerable |}.

(** ** class TLSProfiler *)

(** One entry of [PROFILES['configurations']], with the keys the source
    reads.  [rsa_key_size] and [certificate_curves] may be [null]. *)
Record Profile : Type := {
  tls_versions : list string;
  ciphersuites : list string;
  (** [profile['ciphers']['openssl']] *)
  ciphers_openssl : list string;
  maximum_certificate_lifespan : Z;
  certificate_types : list string;
  rsa_key_size : option Z;
  certificate_curves : option (list string);
  certificate_signatures : list string
}.

(** The document behind [PROFILES_URL]. *)
Record Catalog : Type := {
  version : string;
  configurations : gmap string Profile
}.

(** The object [self].  [supported_ciphers], [supported_protocols] and
    [supported_key_exchange] do not exist until
    [scan_supported_ciphers_and_protocols] has set them.  [scan_log] is not
    an attribute of the source: it records, oldest first, the commands
    handed to [self.scanner]. *)
Record TLSProfiler : Type := {
  target_profile : Profile;
  scanner : SynchronousScanner;
  server_info : option ServerConnectivityInfo;
  server_error : option string;
  supported_ciphers : option (gset string);
  supported_protocols : option (gset string);
  supported_key_exchange : option (list (TempKeyInfo * string));
  scan_log : list ScanCommand
}.

(** [TLSProfiler.__init__].  The catalog and the connectivity test are
    the two things it takes from the network. *)
Definition TLSProfiler_init
    (PROFILES : Catalog)
    (perform : string -> ServerConnectivityError + ServerConnectivityInfo)
    (scanner : SynchronousScanner)
    (domain target_profile_name : string) : Py.exn + TLSProfiler :=
  match configurations PROFILES !! target_profile_name with
  | None => inl (Py.KeyError target_profile_name)
  | Some profile =>
      let '(info, error) :=
        match perform domain with
        | inr info => (Some info, None)
        | inl e => (None, Some (error_message_of e))
        end in
      inr {| target_profile := profile;
             scanner := scanner;
             server_info := info;
             server_error := error;
             supported_ciphers := None;
             supported_protocols := None;
             supported_key_exchange := None;
             scan_log := [] |}
  end.

(** *** Methods as computations on [self] *)

Definition M (A : Type) : Type := TLSProfiler -> (Py.exn + A) * TLSProfiler.

Definition ret {A} (a : A) : M A := fun self => (inr a, self).

Definition bind {A B} (m : M A) (k : A -> M B) : M B :=
  fun self =>
    match m self with
    | (inr a, self') => k a self'
    | (inl e, self') => (inl e, self')
    end.

Definition raise {A} (e : Py.exn) : M A := fun self => (inl e, self).

Definition lift {A} (r : Py.exn + A) : M A := fun self => (r, self).

Definition get_self : M TLSProfiler := fun self => (inr self, self).

(** stdpp's monad notations ([x ← m; k], [m ;; k]) are used for [M]. *)
#[global] Instance M_ret : MRet M := @ret.
#[global] Instance M_bind : MBind M := fun A B k m => bind m k.

(** [for x in xs: ...] where the body updates local variables [acc]. *)
Fixpoint for_each {A S} (xs : list A) (acc : S) (body : S -> A -> M S) : M S :=
  match xs with
  | [] => ret acc
  | x :: xs' => acc' ← body acc x; for_each xs' acc' body
  end.

(** Reading an attribute that may not have been set yet. *)
Definition getattr {A} (name : string) (field : TLSProfiler -> option A) : M A :=
  fun self =>
    match field self with
    | Some v => (inr v, self)
    | None =>
        (inl (Py.AttributeError
                ("'TLSProfiler' object has no attribute '" +:+ name +:+ "'")),
         self)
    end.

(** [xs[0]] *)
Definition first_item {A} (xs : list A) : M A :=
  match xs with
  | x :: _ => ret x
  | [] => raise (Py.IndexError "list index out of range")
  end.

Definition SCAN_COMMANDS : list (string * CipherSuiteScanCommand) :=
  [ ("SSLv2", Sslv20ScanCommand);
    ("SSLv3", Sslv30ScanCommand);
    ("TLSv1", Tlsv10ScanCommand);
    ("TLSv1.1", Tlsv11ScanCommand);
    ("TLSv1.2", Tlsv12ScanCommand);
    ("TLSv1.3", Tlsv13ScanCommand) ].

Definition log_command (command : ScanCommand) (self : TLSProfiler) : TLSProfiler :=
  {| target_profile := target_profile self;
     scanner := scanner self;
     server_info := server_info self;
     server_error := server_error self;
     supported_ciphers := supported_ciphers self;
     supported_protocols := supported_protocols self;
     supported_key_exchange := supported_key_exchange self;
     scan_log := scan_log self ++ [command] |}.

Definition scan (command : ScanCommand) : M (ScanResult command) :=
  fun self =>
    (run_scan_command (scanner self) (server_info self) command,
     log_command command self).

Section Methods.

(** Iterating a [set] visits every member once, in an order Python leaves
    open.  [set_iter] is that order; the theorems assume of it only that it
    enumerates the members without repetition. *)
Variable set_iter : gset string -> list string.

(** The three assignments to attributes of [self] that end
    [scan_supported_ciphers_and_protocols]. *)
Definition set_supported (ciphers protocols : gset string)
    (key_exchange : list (TempKeyInfo * string)) : M unit :=
  fun self =>
    (inr tt,
     {| target_profile := target_profile self;
        scanner := scanner self;
        server_info := server_info self;
        server_error := server_error self;
        supported_ciphers := Some ciphers;
        supported_protocols := Some protocols;
        supported_key_exchange := Some key_exchange;
        scan_log := scan_log self |}).

Definition scan_supported_ciphers_and_protocols : M unit :=
  let supported_ciphers : list string := [] in
  let supported_protocols : list string := [] in
  let supported_key_exchange : list (TempKeyInfo * string) := [] in
  '(supported_ciphers, supported_protocols, supported_key_exchange) ←
    for_each SCAN_COMMANDS
      (supported_ciphers, supported_protocols, supported_key_exchange)
      (fun '(supported_ciphers, supported_protocols, supported_key_exchange)
           '(name, command) =>
         result ← scan (CipherSuites command);
         let ciphers := openssl_name <$> accepted_cipher_list result in
         let supported_ciphers := supported_ciphers ++ ciphers in
         let key_exchange :=
           omap (fun cipher =>
                   match dh_info cipher with
                   | Some info => Some (info, openssl_name cipher)
                   | None => None
                   end)
                (accepted_cipher_list result) in
         let supported_key_exchange := supported_key_exchange ++ key_exchange in
         let supported_protocols :=
           if (0 <? length ciphers)%nat
           then supported_protocols ++ [name]
           else supported_protocols in
         mret (supported_ciphers, supported_protocols, supported_key_exchange));
  set_supported (list_to_set supported_ciphers) (list_to_set supported_protocols)
    supported_key_exchange.

(** [f'must not support "{x}"'] *)
Definition must_not_support (x : string) : string :=
  "must not support " +:+ Py.dquote +:+ x +:+ Py.dquote.

Definition check_server_matches_profile : M (list string) :=
  self ← get_self;
  let errors : list string := [] in
  (* match supported TLS versions *)
  let allowed_protocols : gset string :=
    list_to_set (tls_versions (target_profile self)) in
  supported_protocols ← getattr "supported_protocols" supported_protocols;
  let illegal_protocols := supported_protocols ∖ allowed_protocols in
  let errors :=
    fold_left (fun errors protocol => errors ++ [must_not_support protocol])
              (set_iter illegal_protocols) errors in
  (* match supported cipher suites *)
  let allowed_ciphers : gset string :=
    list_to_set (ciphersuites (target_profile self)
                 ++ ciphers_openssl (target_profile self)) in
  supported_ciphers ← getattr "supported_ciphers" supported_ciphers;
  let illegal_ciphers := supported_ciphers ∖ allowed_ciphers in
  let errors :=
    fold_left (fun errors cipher => errors ++ [must_not_support cipher])
              (set_iter illegal_ciphers) errors in
  mret errors.

Definition _cert_type_string (pub_key : PublicKey) : string :=
  if isinstance pub_key rsa_RSAPublicKey then "RSA"
  else if isinstance pub_key ec_EllipticCurvePublicKey then "ECDSA"
  else if isinstance pub_key ed25519_Ed25519PublicKey then "ED25519"
  else if isinstance pub_key ed448_Ed448PublicKey then "ED448"
  else if isinstance pub_key dsa_DSAPublicKey then "DSA"
  else "".

(** [pub_key.key_size != self.target_profile['rsa_key_size']]: an [int]
    differs from [None]. *)
Definition key_size_differs (size : Z) (required : option Z) : bool :=
  match required with
  | Some n => negb (size =? n)
  | None => true
  end.

Definition check_certificate_properties (self : TLSProfiler)
    (certificate : Certificate) (ocsp_stapling : bool) : list string * string :=
  let errors : list string := [] in
  (* check certificate lifespan *)
  let lifespan :=
    Py.datetime_sub (not_valid_after certificate) (not_valid_before certificate) in
  let errors :=
    if maximum_certificate_lifespan (target_profile self) <? Py.days lifespan
    then errors ++ ["certificate lifespan to long"]
    else errors in
  (* check certificate public key type *)
  let pub_key_type := _cert_type_string (public_key certificate) in
  let errors :=
    if negb (Py.contains (certificate_types (target_profile self))
                         (Py.lower pub_key_type))
    then errors ++ ["wrong certificate type (" +:+ pub_key_type +:+ ")"]
    else errors in
  (* check key property *)
  let pub_key := public_key certificate in
  let errors :=
    if isinstance pub_key rsa_RSAPublicKey
       && Py.truthy_int (rsa_key_size (target_profile self))
       && key_size_differs (key_size pub_key) (rsa_key_size (target_profile self))
    then errors ++ ["RSA certificate has wrong key size"]
    else if isinstance pub_key ec_EllipticCurvePublicKey
            && Py.truthy_list (certificate_curves (target_profile self))
            && negb (Py.contains
                       (default [] (certificate_curves (target_profile self)))
                       (curve_name pub_key))
    then errors ++ ["ECDSA certificate uses wrong curve"]
    else errors in
  (* check certificate signature *)
  let errors :=
    if negb (Py.contains (certificate_signatures (target_profile self))
                         (signature_algorithm_oid_name certificate))
    then errors ++ ["certificate has a wrong signature"]
    else errors in
  (* check if ocsp stabling is supported *)
  let errors :=
    if negb ocsp_stapling
    then errors ++ ["OCSP stapling must be supported"]
    else errors in
  (errors, pub_key_type).

(** [validation_errors.append(x)] when [condition] holds. *)
Definition append_if (condition : bool) (validation_errors : Py.seq_value)
    (x : string) : M Py.seq_value :=
  if condition then lift (Py.append validation_errors x)
  else mret validation_errors.

Definition check_certificate : M (list string * list string * string) :=
  result ← scan CertificateInfoScanCommand;
  let validation_errors := Py.PyList [] in
  certificate ← first_item (received_certificate_chain result);
  self ← get_self;
  let '(profile_errors, pub_key_type) :=
    check_certificate_properties self certificate
      (ocsp_response_is_trusted result) in
  validation_errors ←
    for_each (path_validation_result_list result) validation_errors
      (fun validation_errors r =>
         append_if (negb (was_validation_successful r)) validation_errors
           ("validation not successful: " +:+ verify_string r
            +:+ " (trust store " +:+ trust_store_name r +:+ ")"));
  validation_errors ←
    match path_validation_error_list result with
    | _ :: _ =>
        let validation_errors :=
          Py.PyGenerator (error_message <$> path_validation_error_list result) in
        lift (Py.append validation_errors
                ("Validation failed: "
                 +:+ Py.join ", " (Py.iterate validation_errors)))
    | [] => mret validation_errors
    end;
  validation_errors ←
    append_if (negb (leaf_certificate_subject_matches_hostname result))
      validation_errors "Leaf certificate subject does not match hostname!";
  validation_errors ←
    append_if (negb (received_chain_has_valid_order result))
      validation_errors "Certificate chain has wrong order.";
  validation_errors ←
    append_if (verified_chain_has_sha1_signature result)
      validation_errors "SHA1 signature found in chain.";
  validation_errors ←
    append_if (verified_chain_has_legacy_symantec_anchor result)
      validation_errors "Symantec legacy certificate found in chain.";
  validation_errors ←
    append_if (leaf_certificate_signed_certificate_timestamps_count result <? 2)
      validation_errors
      ("Not enought SCTs in certificate, only found "
       +:+ Py.format_int
             (leaf_certificate_signed_certificate_timestamps_count result)
       +:+ ".");
  (* [len(validation_errors) == 0] selects what is logged *)
  _ ← lift (Py.len validation_errors);
  mret (Py.iterate validation_errors, profile_errors, pub_key_type).

Definition check_vulnerabilities : M (list string) :=
  let errors : list string := [] in
  result ← scan HeartbleedScanCommand;
  let errors :=
    if is_vulnerable_to_heartbleed result
    then errors ++ ["Server is vulnerable to Heartbleed attack"]
    else errors in
  result ← scan OpenSslCcsInjectionScanCommand;
  let errors :=
    if is_vulnerable_to_ccs_injection result
    then errors ++ ["Server is vulnerable to OpenSSL CCS Injection (CVE-2014-0224)"]
    else errors in
  result ← scan RobotScanCommand;
  let errors :=
    if bool_decide (robot_result_enum result
                    ∈ [VULNERABLE_WEAK_ORACLE; VULNERABLE_STRONG_ORACLE])
    then errors ++ ["Server is vulnerable to ROBOT attack."]
    else errors in
  mret errors.

(** [run] returns [None] when there is no connection. *)
Definition run : M (option TLSProfilerResult) :=
  self ← get_self;
  match server_info self with
  | None => mret None
  | Some _ =>
      '(validation_error, cert_profile_error, pub_key_type) ← check_certificate;
      scan_supported_ciphers_and_protocols;;
      profile_errors ← check_server_matches_profile;
      vulnerability_errors ← check_vulnerabilities;
      mret (Some (TLSProfilerResult_init
                    validation_error
                    (profile_errors ++ cert_profile_error)
                    vulnerability_errors))
  end.

End Methods.

(** ** Concrete servers and profiles *)

(** The messages of the three vulnerability findings and of the lifespan
    check, as the source spells them. *)
Definition heartbleed_message : string :=
  "Server is vulnerable to Heartbleed attack".
Definition ccs_injection_message : string :=
  "Server is vulnerable to OpenSSL CCS Injection (CVE-2014-0224)".
Definition robot_message : string :=
  "Server is vulnerable to ROBOT attack.".
Definition lifespan_message : string :=
  "certificate lifespan to long".
Definition generator_has_no_append : Py.exn :=
  Py.AttributeError "'generator' object has no attribute 'append'".

(** The six strings [_cert_type_string] can return. *)
Definition key_families : list string :=
  ["RSA"; "ECDSA"; "ED25519"; "ED448"; "DSA"; ""].

(** The string returned by the branch of [_cert_type_string] that tests
    class [c]. *)
Definition family_of_class (c : KeyClass) : string :=
  match c with
  | rsa_RSAPublicKey => "RSA"
  | ec_EllipticCurvePublicKey => "ECDSA"
  | ed25519_Ed25519PublicKey => "ED25519"
  | ed448_Ed448PublicKey => "ED448"
  | dsa_DSAPublicKey => "DSA"
  end.

(** Lexicographic order on messages, by character code. *)
Definition lexicographically_sorted (errors : list string) : Prop :=
  Sorted String.le errors.

(** The sets the matcher works on. *)
Definition illegal_protocols (profile : Profile) (protocols : gset string) : gset string :=
  protocols ∖ list_to_set (tls_versions profile).

Definition illegal_ciphers (profile : Profile) (ciphers : gset string) : gset string :=
  ciphers ∖ list_to_set (ciphersuites profile ++ ciphers_openssl profile).

(** What [check_certificate] returns as validation errors when it returns:
    the findings in the order of the checks. *)
Definition failed_path_messages (results : list PathValidationResult) : list string :=
  concat ((fun r =>
             if negb (was_validation_successful r)
             then ["validation not successful: " +:+ verify_string r
                   +:+ " (trust store " +:+ trust_store_name r +:+ ")"]
             else []) <$> results).

Definition validation_findings (result : CertificateInfoScanResult) : list string :=
  failed_path_messages (path_validation_result_list result)
  ++ (if negb (leaf_certificate_subject_matches_hostname result)
      then ["Leaf certificate subject does not match hostname!"] else [])
  ++ (if negb (received_chain_has_valid_order result)
      then ["Certificate chain has wrong order."] else [])
  ++ (if verified_chain_has_sha1_signature result
      then ["SHA1 signature found in chain."] else [])
  ++ (if verified_chain_has_legacy_symantec_anchor result
      then ["Symantec legacy certificate found in chain."] else [])
  ++ (if leaf_certificate_signed_certificate_timestamps_count result <? 2
      then ["Not enought SCTs in certificate, only found "
            +:+ Py.format_int
                  (leaf_certificate_signed_certificate_timestamps_count result)
            +:+ "."]
      else []).

(** The commands of one complete [run], in the order they reach the
    scanner. *)
Definition commands_of_run : list ScanCommand :=
  [CertificateInfoScanCommand]
  ++ (CipherSuites <$> SCAN_COMMANDS.*2)
  ++ [HeartbleedScanCommand; OpenSslCcsInjectionScanCommand; RobotScanCommand].

Definition modern : Profile :=
  {| tls_versions := ["TLSv1.3"];
     ciphersuites := ["TLS_AES_128_GCM_SHA256"; "TLS_AES_256_GCM_SHA384";
                      "TLS_CHACHA20_POLY1305_SHA256"];
     ciphers_openssl := [];
     maximum_certificate_lifespan := 90;
     certificate_types := ["ecdsa"];
     rsa_key_size := None;
     certificate_curves := Some ["prime256v1"; "secp384r1"];
     certificate_signatures := ["ecdsa-with-SHA256"; "ecdsa-with-SHA384";
                                "ecdsa-with-SHA512"] |}.

Definition sample_catalog : Catalog :=
  {| version := "5.3"; configurations := {[ "modern" := modern ]} |}.

Definition day : Z := Py.microseconds_per_day.

(** A certificate valid for [lifetime] days and one second less than a
    further day. *)
Definition sample_certificate (lifetime : Z) : Certificate :=
  {| not_valid_before := 738000 * day;
     not_valid_after := 738000 * day + lifetime * day + (day - 1000000);
     public_key := EllipticCurvePublicKey "prime256v1";
     signature_algorithm_oid_name := "ecdsa-with-SHA256" |}.

Definition sample_certificate_info (errors : list PathValidationError)
    : CertificateInfoScanResult :=
  {| received_certificate_chain := [sample_certificate 90];
     ocsp_response_is_trusted := false;
     path_validation_result_list :=
       [ {| was_validation_successful := true;
            verify_string := "ok";
            trust_store_name := "Mozilla" |};
         {| was_validation_successful := false;
            verify_string := "unable to get local issuer certificate";
            trust_store_name := "Java" |} ];
     path_validation_error_list := errors;
     leaf_certificate_subject_matches_hostname := true;
     received_chain_has_valid_order := true;
     verified_chain_has_sha1_signature := false;
     verified_chain_has_legacy_symantec_anchor := false;
     leaf_certificate_signed_certificate_timestamps_count := 1 |}.

(** A server that accepts one TLS 1.3 suite and one TLS 1.2 suite, and is
    open to the ROBOT attack; [errors] is its raw path-validation-error
    list. *)
Definition sample_answers (errors : list PathValidationError)
    (c : ScanCommand) : ScanResult c :=
  match c return ScanResult c with
  | CipherSuites Tlsv13ScanCommand =>
      {| accepted_cipher_list :=
           [ {| openssl_name := "TLS_AES_128_GCM_SHA256";
                dh_info := Some {| key_type := "ECDH"; temp_key_size := 253 |} |} ] |}
  | CipherSuites Tlsv12ScanCommand =>
      {| accepted_cipher_list :=
           [ {| openssl_name := "AES128-SHA"; dh_info := None |} ] |}
  | CipherSuites _ => {| accepted_cipher_list := [] |}
  | CertificateInfoScanCommand => sample_certificate_info errors
  | HeartbleedScanCommand => {| is_vulnerable_to_heartbleed := false |}
  | OpenSslCcsInjectionScanCommand => {| is_vulnerable_to_ccs_injection := true |}
  | RobotScanCommand => {| robot_result_enum := VULNERABLE_WEAK_ORACLE |}
  end.

Definition sample_scanner (errors : list PathValidationError) : SynchronousScanner :=
  {| run_scan_command := fun _ c => inr (sample_answers errors c) |}.

Definition sample_handle : ServerConnectivityInfo :=
  {| hostname := "localhost"; port := 443 |}.

Definition reachable (domain : string)
    : ServerConnectivityError + ServerConnectivityInfo :=
  inr sample_handle.

Definition unreachable (domain : string)
    : ServerConnectivityError + ServerConnectivityInfo :=
  inl {| error_message_of := "Connection to 443 timed-out" |}.

(** A profiler after [__init__], on a reachable server. *)
Definition connected_profiler (errors : list PathValidationError) : TLSProfiler :=
  {| target_profile := modern;
     scanner := sample_scanner errors;
     server_info := Some sample_handle;
     server_error := None;
     supported_ciphers := None;
     supported_protocols := None;
     supported_key_exchange := None;
     scan_log := [] |}.

(** A profiler whose scan of ciphers and protocols found the given sets. *)
Definition surveyed_profiler (profile : Profile)
    (protocols ciphers : gset string) : TLSProfiler :=
  {| target_profile := profile;
     scanner := sample_scanner [];
     server_info := Some sample_handle;
     server_error := None;
     supported_ciphers := Some ciphers;
     supported_protocols := Some protocols;
     supported_key_exchange := Some [];
     scan_log := [] |}.

(** A profile that allows protocols [TLSv1.2] and [TLSv1.3] and the one
    cipher suite [X]. *)
Definition scenario_profile (X : string) : Profile :=
  {| tls_versions := ["TLSv1.2"; "TLSv1.3"];
     ciphersuites := [X];
     ciphers_openssl := [];
     maximum_certificate_lifespan := 90;
     certificate_types := ["ecdsa"];
     rsa_key_size := None;
     certificate_curves := None;
     certificate_signatures := [] |}.

(** A profile that allows nothing, met by a server that speaks one
    protocol and one cipher. *)
Definition strict_profile : Profile :=
  {| tls_versions := [];
     ciphersuites := [];
     ciphers_openssl := [];
     maximum_certificate_lifespan := 90;
     certificate_types := [];
     rsa_key_size := None;
     certificate_curves := None;
     certificate_signatures := [] |}.

Definition unsorted_profiler : TLSProfiler :=
  surveyed_profiler strict_profile {[ "TLSv1.1" ]} {[ "AES128-SHA" ]}.

(** The server of scenario A: the profile allows [TLSv1.2], [TLSv1.3] and
    the suite [X]; the server speaks [TLSv1.0] and the cipher [Y] besides. *)
Definition scenario_A : TLSProfiler :=
  surveyed_profiler (scenario_profile "X")
    {[ "TLSv1.2"; "TLSv1.3"; "TLSv1.0" ]} {[ "X"; "Y" ]}.

(** What [run] gives on [connected_profiler []], iterating sets the way
    [elements] does: the result, and [self] afterwards. *)
Definition sample_result : TLSProfilerResult :=
  TLSProfilerResult_init
    ["validation not successful: unable to get local issuer certificate (trust store Java)";
     "Not enought SCTs in certificate, only found 1."]
    ([must_not_support "TLSv1.2"; must_not_support "AES128-SHA"]
     ++ ["OCSP stapling must be supported"])
    [ccs_injection_message; robot_message].

Definition sample_final : TLSProfiler :=
  {| target_profile := modern;
     scanner := sample_scanner [];
     server_info := Some sample_handle;
     server_error := None;
     supported_ciphers := Some {[ "AES128-SHA"; "TLS_AES_128_GCM_SHA256" ]};
     supported_protocols := Some {[ "TLSv1.2"; "TLSv1.3" ]};
     supported_key_exchange :=
       Some [({| key_type := "ECDH"; temp_key_size := 253 |},
              "TLS_AES_128_GCM_SHA256")];
     scan_log := commands_of_run |}.

(** ** What one pass of the survey loop collects *)

(** The local variables of [scan_supported_ciphers_and_protocols]:
    [supported_ciphers], [supported_protocols], [supported_key_exchange]. *)
Definition survey_state : Type :=
  (list string * list string * list (TempKeyInfo * string))%type.

(** The body of the loop, once the scanner has answered with [result]. *)
Definition survey_step (answers : CipherSuiteScanCommand -> CipherSuiteScanResult)
    (acc : survey_state) (item : string * CipherSuiteScanCommand) : survey_state :=
  let '(supported_ciphers, supported_protocols, supported_key_exchange) := acc in
  let '(name, command) := item in
  let result := answers command in
  let ciphers := openssl_name <$> accepted_cipher_list result in
  (supported_ciphers ++ ciphers,
   if (0 <? length ciphers)%nat
   then supported_protocols ++ [name] else supported_protocols,
   supported_key_exchange
   ++ omap (fun cipher =>
              match dh_info cipher with
              | Some info => Some (info, openssl_name cipher)
              | None => None
              end)
           (accepted_cipher_list result)).

(** The messages of the certificate checks, as the source spells them. *)
Definition sct_message (count : Z) : string :=
  "Not enought SCTs in certificate, only found " +:+ Py.format_int count +:+ ".".
Definition wrong_type_message (pub_key_type : string) : string :=
  "wrong certificate type (" +:+ pub_key_type +:+ ")".
Definition rsa_size_message : string := "RSA certificate has wrong key size".
Definition curve_message : string := "ECDSA certificate uses wrong curve".
Definition signature_message : string := "certificate has a wrong signature".
Definition ocsp_message : string := "OCSP stapling must be supported".

(** The spelling a profile must use in [certificate_types] for the keys of
    class [c] to pass. *)
Definition profile_name_of_class (c : KeyClass) : string :=
  match c with
  | rsa_RSAPublicKey => "rsa"
  | ec_EllipticCurvePublicKey => "ecdsa"
  | ed25519_Ed25519PublicKey => "ed25519"
  | ed448_Ed448PublicKey => "ed448"
  | dsa_DSAPublicKey => "dsa"
  end.

(** The two conditions of the key-property check. *)
Definition rsa_size_wrong (profile : Profile) (pub_key : PublicKey) : bool :=
  isinstance pub_key rsa_RSAPublicKey
  && Py.truthy_int (rsa_key_size profile)
  && key_size_differs (key_size pub_key) (rsa_key_size profile).

Definition curve_wrong (profile : Profile) (pub_key : PublicKey) : bool :=
  isinstance pub_key ec_EllipticCurvePublicKey
  && Py.truthy_list (certificate_curves profile)
  && negb (Py.contains (default [] (certificate_curves profile))
                       (curve_name pub_key)).

(** A scanner that answers like [sample_scanner []], except that the
    TLS 1.1 survey and the CCS-injection probe fail. *)
Definition flaky_scanner : SynchronousScanner :=
  {| run_scan_command := fun _ c =>
       match c return Py.exn + ScanResult c with
       | CipherSuites Tlsv11ScanCommand => inl (Py.ScannerError "timed out")
       | OpenSslCcsInjectionScanCommand => inl (Py.ScannerError "connection reset")
       | c => inr (sample_answers [] c)
       end |}.

Definition flaky_profiler : TLSProfiler :=
  {| target_profile := modern;
     scanner := flaky_scanner;
     server_info := Some sample_handle;
     server_error := None;
     supported_ciphers := None;
     supported_protocols := None;
     supported_key_exchange := None;
     scan_log := [] |}.

(** A server that sends no certificate at all. *)
Definition chainless_info : CertificateInfoScanResult :=
  {| received_certificate_chain := [];
     ocsp_response_is_trusted := false;
     path_validation_result_list := [];
     path_validation_error_list := [ {| error_message := "no certificate" |} ];
     leaf_certificate_subject_matches_hostname := false;
     received_chain_has_valid_order := false;
     verified_chain_has_sha1_signature := false;
     verified_chain_has_legacy_symantec_anchor := false;
     leaf_certificate_signed_certificate_timestamps_count := 0 |}.

Definition chainless_profiler : TLSProfiler :=
  {| target_profile := modern;
     scanner :=
       {| run_scan_command := fun _ c =>
            match c return Py.exn + ScanResult c with
            | CertificateInfoScanCommand => inr chainless_info
            | c => inr (sample_answers [] c)
            end |};
     server_info := Some sample_handle;
     server_error := None;
     supported_ciphers := None;
     supported_protocols := None;
     supported_key_exchange := None;
     scan_log := [] |}.

(** A second way of iterating a set: the members in the opposite order. *)
Definition reversed_elements (s : gset string) : list string :=
  reverse (elements s).

(** A profile that allows nothing, met by a server that speaks two
    protocols and no cipher. *)
Definition two_protocol_profiler : TLSProfiler :=
  surveyed_profiler strict_profile {[ "TLSv1.1"; "TLSv1" ]} ∅.

(** * Properties *)

(** ** Formatting helpers *)

Lemma fold_left_snoc_fmap {A B} (f : A -> B) (xs : list A) (acc : list B) :
  fold_left (fun acc x => acc ++ [f x]) xs acc = acc ++ (f <$> xs).
Proof.
  revert acc. induction xs as [|x xs IH]; intros acc; simpl.
  - by rewrite app_nil_r.
  - rewrite IH. by rewrite <- app_assoc.
Qed.

Lemma append_inj_l (p s t : string) : p +:+ s = p +:+ t -> s = t.
Proof.
  induction p as [|c p IH]; simpl; intros H; [done|].
  injection H as H. by apply IH.
Qed.

Lemma string_length_append (s t : string) :
  String.length (s +:+ t) = (String.length s + String.length t)%nat.
Proof. induction s as [|c s IH]; simpl; [done | by rewrite IH]. Qed.

Lemma append_inj_r (s t q : string) : s +:+ q = t +:+ q -> s = t.
Proof.
  intros H.
  assert (Hlen : String.length s = String.length t).
  { apply (f_equal String.length) in H.
    rewrite !string_length_append in H. lia. }
  revert t H Hlen. induction s as [|c s IH]; intros [|d t] H Hlen;
    simpl in *; try done.
  injection H as -> H. f_equal. apply IH; [done | lia].
Qed.

Lemma must_not_support_inj (x y : string) :
  must_not_support x = must_not_support y -> x = y.
Proof.
  unfold must_not_support. intros H.
  apply append_inj_l, append_inj_l in H.
  by apply append_inj_r in H.
Qed.

#[global] Instance must_not_support_Inj : Inj (=) (=) must_not_support.
Proof. intros x y. apply must_not_support_inj. Qed.

Section Properties.

Variable set_iter : gset string -> list string.
Hypothesis set_iter_perm : forall s : gset string, set_iter s ≡ₚ elements s.

Lemma elem_of_set_iter (s : gset string) (x : string) : x ∈ set_iter s <-> x ∈ s.
Proof. rewrite (set_iter_perm s). apply elem_of_elements. Qed.

Lemma set_iter_NoDup (s : gset string) : NoDup (set_iter s).
Proof. rewrite (set_iter_perm s). apply NoDup_elements. Qed.

Lemma set_iter_singleton (x : string) : set_iter {[ x ]} = [x].
Proof.
  apply Permutation_singleton_r.
  rewrite (set_iter_perm {[ x ]}). by rewrite elements_singleton.
Qed.

Lemma set_iter_empty : set_iter ∅ = [].
Proof.
  apply Permutation_nil_r. rewrite (set_iter_perm ∅). by rewrite elements_empty.
Qed.

(** ** The protocol and cipher matcher *)

Lemma check_server_matches_profile_eq (self : TLSProfiler)
    (protocols ciphers : gset string) :
  supported_protocols self = Some protocols ->
  supported_ciphers self = Some ciphers ->
  check_server_matches_profile set_iter self
  = (inr ((must_not_support <$> set_iter (illegal_protocols (target_profile self) protocols))
          ++ (must_not_support <$> set_iter (illegal_ciphers (target_profile self) ciphers))),
     self).
Proof.
  intros Hp Hc.
  unfold check_server_matches_profile, mbind, M_bind, bind, get_self, getattr,
    mret, M_ret, ret.
  rewrite Hp, Hc. rewrite !fold_left_snoc_fmap. done.
Qed.

(** C3.  For every profile and every pair of supported-protocol and
    supported-cipher sets, the matcher returns, without raising and without
    touching [self], one message for each [x] of the supported protocols
    minus the profile's [tls_versions], and one for each [x] of the
    supported ciphers minus the union of the profile's [ciphersuites] and
    OpenSSL-named ciphers; it returns nothing else.  The message for [x] is
    the text [must not support ] followed by [x] between two double quotes
    (character 34).  The list is those messages up to the order in which the
    two sets are iterated, and distinct members give distinct messages. *)
Theorem check_server_matches_profile_exact (self : TLSProfiler)
    (protocols ciphers : gset string) :
  supported_protocols self = Some protocols ->
  supported_ciphers self = Some ciphers ->
  let quote := String (Ascii.ascii_of_nat 34) EmptyString in
  let message := fun x : string => "must not support " +:+ quote +:+ x +:+ quote in
  let P := target_profile self in
  let allowed_protocols : gset string := list_to_set (tls_versions P) in
  let allowed_ciphers : gset string :=
    list_to_set (ciphersuites P) ∪ list_to_set (ciphers_openssl P) in
  exists errors : list string,
    check_server_matches_profile set_iter self = (inr errors, self)
    /\ errors ≡ₚ (message <$> elements (protocols ∖ allowed_protocols))
                  ++ (message <$> elements (ciphers ∖ allowed_ciphers))
    /\ (forall e : string,
          e ∈ errors <->
          exists x : string,
            e = message x
            /\ ((x ∈ protocols /\ x ∉ allowed_protocols)
                \/ (x ∈ ciphers /\ x ∉ allowed_ciphers)))
    /\ (forall x y : string, message x = message y -> x = y).
Proof.
  intros Hp Hc quote message P allowed_protocols allowed_ciphers.
  assert (Hmessage : message = must_not_support) by reflexivity.
  clearbody message. subst message. clear quote.
  eexists. split; [by apply check_server_matches_profile_eq|].
  assert (Hallowed : list_to_set (ciphersuites P ++ ciphers_openssl P)
                     = allowed_ciphers)
    by apply list_to_set_app_L.
  unfold illegal_protocols, illegal_ciphers. fold P. rewrite Hallowed.
  fold allowed_protocols.
  split; [|split].
  - by rewrite !set_iter_perm.
  - intros e. rewrite elem_of_app, !list_elem_of_fmap.
    setoid_rewrite elem_of_set_iter. setoid_rewrite elem_of_difference.
    split.
    + intros [(x & -> & Hx) | (x & -> & Hx)]; exists x; auto.
    + intros (x & -> & [Hx | Hx]); [left | right]; exists x; auto.
  - apply must_not_support_inj.
Qed.

(** C5, as amended.  The matcher neither sorts its list nor fixes its
    order by the input sets alone.  Its list is the messages for the illegal
    protocols, in the order that set is iterated, followed by the messages
    for the illegal ciphers, in the order that set is iterated: the same sets
    iterated in the same order give the same list.  The message for [x] is
    the text [must not support ] followed by [x] between two double quotes
    (character 34).  For a profile allowing protocols [TLSv1.2] and
    [TLSv1.3] and the cipher suite [X] only, and a server supporting
    protocols [TLSv1.2], [TLSv1.3], [TLSv1.0] and two different ciphers [X]
    and [Y], the list is exactly the message for [TLSv1.0] followed by the
    message for [Y], under every iteration order. *)
Theorem check_server_matches_profile_order (self : TLSProfiler)
    (protocols ciphers : gset string) :
  supported_protocols self = Some protocols ->
  supported_ciphers self = Some ciphers ->
  let quote := String (Ascii.ascii_of_nat 34) EmptyString in
  let message := fun x : string => "must not support " +:+ quote +:+ x +:+ quote in
  let P := target_profile self in
  check_server_matches_profile set_iter self
  = (inr ((message <$> set_iter (protocols ∖ list_to_set (tls_versions P)))
          ++ (message
                <$> set_iter (ciphers
                              ∖ list_to_set (ciphersuites P ++ ciphers_openssl P)))),
     self)
  /\ (forall X Y : string,
        X ≠ Y ->
        tls_versions P = ["TLSv1.2"; "TLSv1.3"] ->
        ciphersuites P = [X] ->
        ciphers_openssl P = [] ->
        protocols = {[ "TLSv1.2"; "TLSv1.3"; "TLSv1.0" ]} ->
        ciphers = {[ X; Y ]} ->
        check_server_matches_profile set_iter self
        = (inr [message "TLSv1.0"; message Y], self)).
Proof.
  intros Hp Hc quote message P.
  assert (Hmessage : message = must_not_support) by reflexivity.
  clearbody message. subst message. clear quote.
  split; [by apply check_server_matches_profile_eq|].
  intros X Y HXY Htls Hsuites Hopenssl -> ->.
  rewrite (check_server_matches_profile_eq self _ _ Hp Hc). fold P.
  unfold illegal_protocols, illegal_ciphers.
  rewrite Htls, Hsuites, Hopenssl.
  assert (Hprotocols :
            ({[ "TLSv1.2"; "TLSv1.3"; "TLSv1.0" ]} : gset string)
              ∖ list_to_set ["TLSv1.2"; "TLSv1.3"]
            = {[ "TLSv1.0" ]}).
  { apply set_eq. intros x.
    rewrite elem_of_difference, elem_of_list_to_set, !elem_of_union,
      !elem_of_singleton, !elem_of_cons, elem_of_nil.
    split.
    - intros [[[-> | ->] | ->] Hnot]; [exfalso; apply Hnot; auto ..| done].
    - intros ->. split; [auto|]. intros [H | [H | []]]; discriminate H. }
  assert (Hciphers :
            ({[ X; Y ]} : gset string) ∖ list_to_set ([X] ++ []) = {[ Y ]}).
  { apply set_eq. intros x.
    rewrite elem_of_difference, elem_of_list_to_set, elem_of_union,
      !elem_of_singleton. simpl. rewrite elem_of_cons, elem_of_nil.
    split.
    - intros [[-> | ->] Hnot]; [exfalso; apply Hnot; auto | done].
    - intros ->. split; [auto|]. intros [H | []]. by apply HXY. }
  rewrite Hprotocols, Hciphers, !set_iter_singleton. done.
Qed.

End Properties.

(** ** The result object *)

(** C2.  For every triple of error lists handed to the constructor, the
    result keeps the three lists; [validated] is true exactly when the
    validation list is empty, [profile_matched] exactly when the profile list
    is empty, [vulnerable] exactly when the vulnerability list is not empty,
    and [all_ok] exactly when all three lists are empty. *)
Theorem result_flags (validation profile vulnerability : list string) :
  let r := TLSProfilerResult_init validation profile vulnerability in
  validation_errors r = validation
  /\ profile_errors r = profile
  /\ vulnerability_errors r = vulnerability
  /\ (validated r = true <-> validation = [])
  /\ (profile_matched r = true <-> profile = [])
  /\ (vulnerable r = true <-> vulnerability ≠ [])
  /\ (all_ok r = true <-> validation = [] /\ profile = [] /\ vulnerability = [])
  /\ all_ok r = validated r && profile_matched r && negb (vulnerable r).
Proof.
  simpl. repeat split; try done.
  all: destruct validation, profile, vulnerability; simpl; try done.
  all: try (by intros (? & ? & ?)).
Qed.

(** ** The key-family classifier *)

Lemma isinstance_exclusive (pub_key : PublicKey) (c1 c2 : KeyClass) :
  isinstance pub_key c1 = true -> isinstance pub_key c2 = true -> c1 = c2.
Proof. destruct pub_key, c1, c2; simpl; congruence. Qed.

(** C4.  For every public key the classifier returns one of the six values
    [RSA], [ECDSA], [ED25519], [ED448], [DSA] and the empty string, which are
    pairwise different.  The five type tests exclude one another; the value
    returned is the one of the branch whose test holds, and the empty string
    exactly when no test holds. *)
Theorem cert_type_string_total_exclusive (pub_key : PublicKey) :
  _cert_type_string pub_key ∈ key_families
  /\ NoDup key_families
  /\ (forall c1 c2 : KeyClass,
        isinstance pub_key c1 = true -> isinstance pub_key c2 = true -> c1 = c2)
  /\ (forall c : KeyClass,
        isinstance pub_key c = true <->
        _cert_type_string pub_key = family_of_class c)
  /\ ((forall c : KeyClass, isinstance pub_key c = false) <->
      _cert_type_string pub_key = "").
Proof.
  split; [|split; [|split; [|split]]].
  - unfold key_families.
    destruct pub_key; simpl; rewrite !elem_of_cons; auto 10.
  - apply (bool_decide_unpack _). vm_compute. exact I.
  - apply isinstance_exclusive.
  - intros c. destruct pub_key, c; vm_compute; split; congruence.
  - split.
    + intros H. destruct pub_key; try reflexivity.
      * discriminate (H rsa_RSAPublicKey).
      * discriminate (H ec_EllipticCurvePublicKey).
      * discriminate (H ed25519_Ed25519PublicKey).
      * discriminate (H ed448_Ed448PublicKey).
      * discriminate (H dsa_DSAPublicKey).
    + intros H c. destruct pub_key, c; try reflexivity; discriminate H.
Qed.

(** ** The certificate checks against the profile *)

Lemma lifespan_errors_of_properties (self : TLSProfiler)
    (certificate : Certificate) (ocsp_stapling : bool) :
  filter (fun e => e = lifespan_message)
         (check_certificate_properties self certificate ocsp_stapling).1
  = if maximum_certificate_lifespan (target_profile self)
       <? Py.days (Py.datetime_sub (not_valid_after certificate)
                                   (not_valid_before certificate))
    then [lifespan_message] else [].
Proof.
  unfold check_certificate_properties. simpl.
  destruct (public_key certificate); simpl;
    repeat match goal with
           | |- context [if ?b then _ else _] => destruct b
           end;
    reflexivity.
Qed.

(** C6.  For every certificate and profile: when the lifespan of the
    certificate, [not_valid_after - not_valid_before] in whole days, equals
    the profile's [maximum_certificate_lifespan], the check emits no lifespan
    error; when it is one day more, the check emits exactly one. *)
Theorem lifespan_boundary (self : TLSProfiler) (certificate : Certificate)
    (ocsp_stapling : bool) :
  let lifespan_days :=
    Py.days (Py.datetime_sub (not_valid_after certificate)
                             (not_valid_before certificate)) in
  let maximum := maximum_certificate_lifespan (target_profile self) in
  let errors := (check_certificate_properties self certificate ocsp_stapling).1 in
  (lifespan_days = maximum ->
   filter (fun e => e = lifespan_message) errors = [])
  /\ (lifespan_days = maximum + 1 ->
      filter (fun e => e = lifespan_message) errors = [lifespan_message]).
Proof.
  intros lifespan_days maximum errors. unfold errors.
  rewrite lifespan_errors_of_properties. fold maximum lifespan_days.
  split; intros ->.
  - by rewrite Z.ltb_irrefl.
  - destruct (Z.ltb_spec maximum (maximum + 1)); [done | lia].
Qed.

(** ** Scanning *)

Lemma bind_eq {A B} (m : M A) (k : A -> M B) (self : TLSProfiler) :
  (m ≫= k) self
  = match m self with
    | (inr a, self') => k a self'
    | (inl e, self') => (inl e, self')
    end.
Proof. reflexivity. Qed.

Lemma scan_eq (command : ScanCommand) (self : TLSProfiler) :
  scan command self
  = (run_scan_command (scanner self) (server_info self) command,
     log_command command self).
Proof. reflexivity. Qed.

(** ** The vulnerability classifier *)

Lemma check_vulnerabilities_eq (self : TLSProfiler)
    (heartbleed : HeartbleedScanResult) (ccs : OpenSslCcsInjectionScanResult)
    (robot : RobotScanResult) :
  run_scan_command (scanner self) (server_info self) HeartbleedScanCommand
  = inr heartbleed ->
  run_scan_command (scanner self) (server_info self) OpenSslCcsInjectionScanCommand
  = inr ccs ->
  run_scan_command (scanner self) (server_info self) RobotScanCommand
  = inr robot ->
  check_vulnerabilities self
  = (inr ((if is_vulnerable_to_heartbleed heartbleed
           then [heartbleed_message] else [])
          ++ (if is_vulnerable_to_ccs_injection ccs
              then [ccs_injection_message] else [])
          ++ (if bool_decide (robot_result_enum robot
                              ∈ [VULNERABLE_WEAK_ORACLE; VULNERABLE_STRONG_ORACLE])
              then [robot_message] else [])),
     log_command RobotScanCommand
       (log_command OpenSslCcsInjectionScanCommand
          (log_command HeartbleedScanCommand self))).
Proof.
  intros Hh Hc Hr. unfold check_vulnerabilities.
  rewrite bind_eq, scan_eq, Hh.
  rewrite bind_eq, scan_eq. simpl scanner. simpl server_info. rewrite Hc.
  rewrite bind_eq, scan_eq. simpl scanner. simpl server_info. rewrite Hr.
  destruct (is_vulnerable_to_heartbleed heartbleed),
    (is_vulnerable_to_ccs_injection ccs),
    (bool_decide (robot_result_enum robot
                  ∈ [VULNERABLE_WEAK_ORACLE; VULNERABLE_STRONG_ORACLE]));
    reflexivity.
Qed.

(** C7.  When the three probes answer, the classifier returns a list that
    holds the ROBOT message exactly when the ROBOT verdict is
    [VULNERABLE_WEAK_ORACLE] or [VULNERABLE_STRONG_ORACLE]; under each of the
    three other verdicts the list holds the Heartbleed and CCS findings and
    nothing for ROBOT. *)
Theorem robot_error_iff (self : TLSProfiler)
    (heartbleed : HeartbleedScanResult) (ccs : OpenSslCcsInjectionScanResult)
    (robot : RobotScanResult) :
  run_scan_command (scanner self) (server_info self) HeartbleedScanCommand
  = inr heartbleed ->
  run_scan_command (scanner self) (server_info self) OpenSslCcsInjectionScanCommand
  = inr ccs ->
  run_scan_command (scanner self) (server_info self) RobotScanCommand
  = inr robot ->
  exists (errors : list string) (self' : TLSProfiler),
    check_vulnerabilities self = (inr errors, self')
    /\ (robot_message ∈ errors <->
        robot_result_enum robot = VULNERABLE_WEAK_ORACLE
        \/ robot_result_enum robot = VULNERABLE_STRONG_ORACLE)
    /\ (robot_result_enum robot
          ∈ [NOT_VULNERABLE_NO_ORACLE; NOT_VULNERABLE_RSA_NOT_SUPPORTED;
             UNKNOWN_INCONSISTENT_RESULTS] ->
        errors
        = (if is_vulnerable_to_heartbleed heartbleed
           then [heartbleed_message] else [])
          ++ (if is_vulnerable_to_ccs_injection ccs
              then [ccs_injection_message] else [])).
Proof.
  intros Hh Hc Hr. eexists _, _.
  split; [by apply check_vulnerabilities_eq|].
  set (b := bool_decide (robot_result_enum robot
                         ∈ [VULNERABLE_WEAK_ORACLE; VULNERABLE_STRONG_ORACLE])).
  assert (Hb : b = true <->
               robot_result_enum robot = VULNERABLE_WEAK_ORACLE
               \/ robot_result_enum robot = VULNERABLE_STRONG_ORACLE).
  { unfold b. rewrite bool_decide_eq_true, !elem_of_cons, elem_of_nil. tauto. }
  split.
  - rewrite <- Hb. rewrite !elem_of_app.
    destruct (is_vulnerable_to_heartbleed heartbleed),
      (is_vulnerable_to_ccs_injection ccs), b;
      rewrite ?elem_of_cons, ?elem_of_nil; split; auto.
    all: intros H; repeat destruct H as [H | H]; try done; discriminate H.
  - intros Hother. destruct b; [|by rewrite app_nil_r].
    destruct Hb as [Hb _]. specialize (Hb eq_refl).
    rewrite !elem_of_cons, elem_of_nil in Hother.
    destruct Hb as [Hb | Hb]; rewrite Hb in Hother;
      repeat destruct Hother as [Hother | Hother]; done.
Qed.

(** C9.  For every combination of probe verdicts, the list the classifier
    returns is a sublist of [Heartbleed; CCS injection; ROBOT] in that order:
    it has at most three entries, keeps that order, and holds no message
    twice. *)
Theorem vulnerability_errors_order (self : TLSProfiler)
    (heartbleed : HeartbleedScanResult) (ccs : OpenSslCcsInjectionScanResult)
    (robot : RobotScanResult) :
  run_scan_command (scanner self) (server_info self) HeartbleedScanCommand
  = inr heartbleed ->
  run_scan_command (scanner self) (server_info self) OpenSslCcsInjectionScanCommand
  = inr ccs ->
  run_scan_command (scanner self) (server_info self) RobotScanCommand
  = inr robot ->
  exists (errors : list string) (self' : TLSProfiler),
    check_vulnerabilities self = (inr errors, self')
    /\ (length errors <= 3)%nat
    /\ errors `sublist_of` [heartbleed_message; ccs_injection_message; robot_message]
    /\ NoDup errors.
Proof.
  intros Hh Hc Hr. eexists _, _.
  split; [by apply check_vulnerabilities_eq|].
  assert (Hdistinct :
            NoDup [heartbleed_message; ccs_injection_message; robot_message]).
  { apply (bool_decide_unpack _). vm_compute. exact I. }
  assert (Hsub :
            ((if is_vulnerable_to_heartbleed heartbleed
              then [heartbleed_message] else [])
             ++ (if is_vulnerable_to_ccs_injection ccs
                 then [ccs_injection_message] else [])
             ++ (if bool_decide (robot_result_enum robot
                                 ∈ [VULNERABLE_WEAK_ORACLE; VULNERABLE_STRONG_ORACLE])
                 then [robot_message] else []))
            `sublist_of` [heartbleed_message; ccs_injection_message; robot_message]).
  { destruct (is_vulnerable_to_heartbleed heartbleed),
      (is_vulnerable_to_ccs_injection ccs),
      (bool_decide (robot_result_enum robot
                    ∈ [VULNERABLE_WEAK_ORACLE; VULNERABLE_STRONG_ORACLE]));
      simpl;
      repeat first [ apply sublist_nil | apply sublist_skip | apply sublist_cons ]. }
  split; [|split].
  - apply sublist_length in Hsub. exact Hsub.
  - exact Hsub.
  - eapply sublist_NoDup; eassumption.
Qed.

(** ** The certificate validator *)

Lemma append_if_list (condition : bool) (items : list string) (x : string)
    (self : TLSProfiler) :
  append_if condition (Py.PyList items) x self
  = (inr (Py.PyList (items ++ (if condition then [x] else []))), self).
Proof. destruct condition; simpl; [done | by rewrite app_nil_r]. Qed.

Lemma for_each_path_results (results : list PathValidationResult)
    (items : list string) (self : TLSProfiler) :
  for_each results (Py.PyList items)
    (fun validation_errors r =>
       append_if (negb (was_validation_successful r)) validation_errors
         ("validation not successful: " +:+ verify_string r
          +:+ " (trust store " +:+ trust_store_name r +:+ ")")) self
  = (inr (Py.PyList (items ++ failed_path_messages results)), self).
Proof.
  revert items. induction results as [|r results IH]; intros items.
  - simpl. by rewrite app_nil_r.
  - cbn [for_each]. rewrite bind_eq, append_if_list, IH.
    unfold failed_path_messages. cbn [fmap list_fmap concat].
    by rewrite <- !app_assoc.
Qed.

Lemma check_certificate_properties_log (command : ScanCommand)
    (self : TLSProfiler) (certificate : Certificate) (ocsp_stapling : bool) :
  check_certificate_properties (log_command command self) certificate ocsp_stapling
  = check_certificate_properties self certificate ocsp_stapling.
Proof. reflexivity. Qed.

(** What [check_certificate] does once the scanner has answered with
    [result]: the three ways it can end. *)
Lemma check_certificate_eq (self : TLSProfiler) (result : CertificateInfoScanResult) :
  run_scan_command (scanner self) (server_info self) CertificateInfoScanCommand
  = inr result ->
  check_certificate self
  = (match received_certificate_chain result with
     | [] => inl (Py.IndexError "list index out of range")
     | certificate :: _ =>
         match path_validation_error_list result with
         | _ :: _ => inl generator_has_no_append
         | [] =>
             inr (validation_findings result,
                  (check_certificate_properties self certificate
                     (ocsp_response_is_trusted result)).1,
                  (check_certificate_properties self certificate
                     (ocsp_response_is_trusted result)).2)
         end
     end,
     log_command CertificateInfoScanCommand self).
Proof.
  intros Hscan. unfold check_certificate.
  rewrite bind_eq, scan_eq, Hscan.
  destruct (received_certificate_chain result) as [|certificate rest];
    [reflexivity|].
  rewrite bind_eq. cbn [first_item mret M_ret ret].
  rewrite bind_eq. cbn [get_self].
  rewrite check_certificate_properties_log.
  destruct (check_certificate_properties self certificate
              (ocsp_response_is_trusted result)) as [profile_errors pub_key_type].
  rewrite bind_eq, for_each_path_results.
  destruct (path_validation_error_list result) as [|failure failures].
  - rewrite bind_eq. cbn [mret M_ret ret].
    repeat (rewrite bind_eq, append_if_list).
    rewrite bind_eq. cbn [lift Py.len mret M_ret ret Py.iterate fst snd].
    unfold validation_findings. rewrite <- !app_assoc. reflexivity.
  - reflexivity.
Qed.

Lemma check_certificate_scan_raises (self : TLSProfiler) (e : Py.exn) :
  run_scan_command (scanner self) (server_info self) CertificateInfoScanCommand
  = inl e ->
  check_certificate self = (inl e, log_command CertificateInfoScanCommand self).
Proof.
  intros Hscan. unfold check_certificate. by rewrite bind_eq, scan_eq, Hscan.
Qed.

(** C1, on the code.  When the scanner reports a certificate chain and a
    raw path-validation-error list that is not empty, [check_certificate]
    returns no list of messages at all: it raises [AttributeError], the
    generator bound to [validation_errors] having no [append]. *)
Theorem check_certificate_raises_on_path_validation_errors
    (self : TLSProfiler) (result : CertificateInfoScanResult)
    (certificate : Certificate) (rest : list Certificate) :
  run_scan_command (scanner self) (server_info self) CertificateInfoScanCommand
  = inr result ->
  received_certificate_chain result = certificate :: rest ->
  path_validation_error_list result ≠ [] ->
  check_certificate self
  = (inl (Py.AttributeError "'generator' object has no attribute 'append'"),
     log_command CertificateInfoScanCommand self).
Proof.
  intros Hscan Hchain Herrors.
  rewrite (check_certificate_eq self result Hscan), Hchain.
  destruct (path_validation_error_list result); [done | reflexivity].
Qed.

(** ** The survey of protocols and ciphers *)

Lemma bind_inv {A B} (m : M A) (k : A -> M B) (self self' : TLSProfiler) (b : B) :
  (m ≫= k) self = (inr b, self') ->
  exists (a : A) (self1 : TLSProfiler),
    m self = (inr a, self1) /\ k a self1 = (inr b, self').
Proof.
  rewrite bind_eq. destruct (m self) as [[e | a] self1]; [discriminate|].
  intros H. by exists a, self1.
Qed.

Lemma scan_inv (command : ScanCommand) (self self' : TLSProfiler)
    (answer : ScanResult command) :
  scan command self = (inr answer, self') ->
  run_scan_command (scanner self) (server_info self) command = inr answer
  /\ self' = log_command command self.
Proof. rewrite scan_eq. intros H. by injection H as H1 H2. Qed.

(** A loop whose body sends one command per item leaves [self] as it was,
    but for the log. *)
Lemma for_each_logs {A S} (command_of : A -> ScanCommand)
    (body : S -> A -> M S) (xs : list A) :
  (forall acc x self acc' self',
      body acc x self = (inr acc', self') ->
      self' = log_command (command_of x) self) ->
  forall acc self acc' self',
    for_each xs acc body self = (inr acc', self') ->
    self' = foldl (fun self x => log_command (command_of x) self) self xs.
Proof.
  intros Hbody. induction xs as [|x xs IH]; intros acc self acc' self' H.
  - by injection H as _ <-.
  - cbn [for_each] in H. apply bind_inv in H as (acc1 & self1 & H1 & H2).
    apply Hbody in H1 as ->. by apply IH in H2.
Qed.

Lemma scan_supported_ciphers_and_protocols_inv (self self' : TLSProfiler) (u : unit) :
  scan_supported_ciphers_and_protocols self = (inr u, self') ->
  exists (ciphers protocols : gset string)
         (key_exchange : list (TempKeyInfo * string)),
    self' = {| target_profile := target_profile self;
               scanner := scanner self;
               server_info := server_info self;
               server_error := server_error self;
               supported_ciphers := Some ciphers;
               supported_protocols := Some protocols;
               supported_key_exchange := Some key_exchange;
               scan_log := scan_log self ++ (CipherSuites <$> SCAN_COMMANDS.*2) |}.
Proof.
  unfold scan_supported_ciphers_and_protocols. intros H.
  apply bind_inv in H as ([[ciphers protocols] key_exchange] & self1 & Hloop & Hset).
  apply (for_each_logs (fun x => CipherSuites x.2)) in Hloop.
  - exists (list_to_set ciphers), (list_to_set protocols), key_exchange.
    unfold set_supported in Hset. injection Hset as _ <-.
    rewrite Hloop. cbn. by rewrite <- !app_assoc.
  - intros [[cs ps] kx] [name command] s acc' s' Hbody.
    apply bind_inv in Hbody as (answer & s1 & Hscan & Hret).
    apply (scan_inv (CipherSuites command)) in Hscan as [_ ->].
    by injection Hret as _ <-.
Qed.

Lemma check_vulnerabilities_inv (self self' : TLSProfiler) (errors : list string) :
  check_vulnerabilities self = (inr errors, self') ->
  self' = log_command RobotScanCommand
            (log_command OpenSslCcsInjectionScanCommand
               (log_command HeartbleedScanCommand self)).
Proof.
  unfold check_vulnerabilities. intros H.
  apply bind_inv in H as (heartbleed & s1 & H1 & H).
  apply bind_inv in H as (ccs & s2 & H2 & H).
  apply bind_inv in H as (robot & s3 & H3 & H).
  apply (scan_inv HeartbleedScanCommand) in H1 as [_ ->].
  apply (scan_inv OpenSslCcsInjectionScanCommand) in H2 as [_ ->].
  apply (scan_inv RobotScanCommand) in H3 as [_ ->].
  by injection H as _ <-.
Qed.

Lemma check_certificate_inv (self self' : TLSProfiler)
    (validation profile : list string) (pub_key_type : string) :
  check_certificate self = (inr (validation, profile, pub_key_type), self') ->
  exists (result : CertificateInfoScanResult) (certificate : Certificate)
         (rest : list Certificate),
    run_scan_command (scanner self) (server_info self) CertificateInfoScanCommand
    = inr result
    /\ received_certificate_chain result = certificate :: rest
    /\ path_validation_error_list result = []
    /\ validation = validation_findings result
    /\ (profile, pub_key_type)
       = check_certificate_properties self certificate
           (ocsp_response_is_trusted result)
    /\ self' = log_command CertificateInfoScanCommand self.
Proof.
  destruct (run_scan_command (scanner self) (server_info self)
              CertificateInfoScanCommand) as [e | result] eqn:Hscan.
  - rewrite (check_certificate_scan_raises self e Hscan). discriminate.
  - rewrite (check_certificate_eq self result Hscan).
    destruct (received_certificate_chain result) as [|certificate rest]
      eqn:Hchain; [discriminate|].
    destruct (path_validation_error_list result) eqn:Herrors; [|discriminate].
    intros H. injection H as <- <- <- <-.
    exists result, certificate, rest. repeat split; try done.
Qed.

(** ** The whole evaluation *)

Lemma run_disconnected (set_iter : gset string -> list string) (self : TLSProfiler) :
  server_info self = None -> run set_iter self = (inr None, self).
Proof. intros H. unfold run. rewrite bind_eq. cbn [get_self]. by rewrite H. Qed.

(** What a [run] that returns a result went through. *)
Lemma run_inv (set_iter : gset string -> list string) (self self' : TLSProfiler)
    (r : TLSProfilerResult) :
  run set_iter self = (inr (Some r), self') ->
  exists (info : ServerConnectivityInfo)
         (validation cert_profile : list string) (pub_key_type : string)
         (self1 self2 : TLSProfiler)
         (matcher vulnerability : list string),
    server_info self = Some info
    /\ check_certificate self = (inr (validation, cert_profile, pub_key_type), self1)
    /\ scan_supported_ciphers_and_protocols self1 = (inr tt, self2)
    /\ check_server_matches_profile set_iter self2 = (inr matcher, self2)
    /\ check_vulnerabilities self2 = (inr vulnerability, self')
    /\ r = TLSProfilerResult_init validation (matcher ++ cert_profile) vulnerability.
Proof.
  unfold run. rewrite bind_eq. cbn [get_self].
  destruct (server_info self) as [info|] eqn:Hinfo; [|discriminate].
  intros H.
  apply bind_inv in H as ([[validation cert_profile] pub_key_type] & self1 & Hcert & H).
  apply bind_inv in H as ([] & self2 & Hsurvey & H).
  apply bind_inv in H as (matcher & self3 & Hmatch & H).
  apply bind_inv in H as (vulnerability & self4 & Hvuln & H).
  injection H as <- <-.
  destruct (scan_supported_ciphers_and_protocols_inv _ _ _ Hsurvey)
    as (ciphers & protocols & key_exchange & Hself2).
  assert (Hmatch' := check_server_matches_profile_eq set_iter self2 protocols ciphers).
  rewrite Hself2 in Hmatch' at 1 2. specialize (Hmatch' eq_refl eq_refl).
  rewrite Hmatch' in Hmatch. injection Hmatch as Hmatcher <-.
  exists info, validation, cert_profile, pub_key_type, self1, self2,
    matcher, vulnerability.
  repeat split; try done. by rewrite Hmatch', Hmatcher.
Qed.

(** C8.  After [__init__] with a known profile name: if the connectivity
    test failed with a message, [self] holds no server handle and holds that
    message, and [run] returns [None] and leaves [self] as it is (no scan is
    made).  If [run] returns a result, the connectivity test had succeeded,
    no connection error is stored, and the result is a complete
    [TLSProfilerResult] built by its constructor. *)
Theorem run_without_connection (set_iter : gset string -> list string)
    (PROFILES : Catalog)
    (perform : string -> ServerConnectivityError + ServerConnectivityInfo)
    (scanner0 : SynchronousScanner) (domain target_profile_name : string)
    (profile : Profile) :
  configurations PROFILES !! target_profile_name = Some profile ->
  exists self : TLSProfiler,
    TLSProfiler_init PROFILES perform scanner0 domain target_profile_name = inr self
    /\ (forall e : ServerConnectivityError,
          perform domain = inl e ->
          server_info self = None
          /\ server_error self = Some (error_message_of e)
          /\ run set_iter self = (inr None, self))
    /\ (forall (r : TLSProfilerResult) (self' : TLSProfiler),
          run set_iter self = (inr (Some r), self') ->
          (exists info, perform domain = inr info)
          /\ server_error self = None
          /\ exists validation profile_ vulnerability : list string,
               r = TLSProfilerResult_init validation profile_ vulnerability).
Proof.
  intros Hprofile. unfold TLSProfiler_init. rewrite Hprofile.
  destruct (perform domain) as [e | info] eqn:Hperform; eexists;
    (split; [reflexivity|]); split.
  - intros e' He'. injection He' as <-.
    split; [done|]. split; [done|]. by apply run_disconnected.
  - intros r self' Hrun. by rewrite run_disconnected in Hrun.
  - intros e He. discriminate He.
  - intros r self' Hrun. split; [by exists info|]. split; [done|].
    apply run_inv in Hrun
      as (_ & validation & cert_profile & _ & _ & _ & matcher & vulnerability
          & _ & _ & _ & _ & _ & ->).
    by exists validation, (matcher ++ cert_profile), vulnerability.
Qed.

(** C10.  Whenever [run] returns a result, its profile-error list is the
    errors of the protocol and cipher matcher followed by the errors of the
    certificate checks against the profile, in that order; yet the
    certificate scan is the first command [run] sends, before the survey of
    protocols and ciphers on which the matcher works. *)
Theorem run_profile_errors_order (set_iter : gset string -> list string)
    (self self' : TLSProfiler) (r : TLSProfilerResult) :
  run set_iter self = (inr (Some r), self') ->
  exists (result : CertificateInfoScanResult) (certificate : Certificate)
         (rest : list Certificate) (matcher : list string),
    run_scan_command (scanner self) (server_info self) CertificateInfoScanCommand
    = inr result
    /\ received_certificate_chain result = certificate :: rest
    /\ check_server_matches_profile set_iter self' = (inr matcher, self')
    /\ profile_errors r
       = matcher
         ++ (check_certificate_properties self certificate
               (ocsp_response_is_trusted result)).1
    /\ scan_log self' = scan_log self ++ commands_of_run.
Proof.
  intros Hrun.
  apply run_inv in Hrun
    as (info & validation & cert_profile & pub_key_type & self1 & self2
        & matcher & vulnerability & Hinfo & Hcert & Hsurvey & Hmatch & Hvuln & ->).
  apply check_certificate_inv in Hcert
    as (result & certificate & rest & Hscan & Hchain & _ & _ & Hprops & ->).
  apply scan_supported_ciphers_and_protocols_inv in Hsurvey
    as (ciphers & protocols & key_exchange & ->).
  apply check_vulnerabilities_inv in Hvuln as ->.
  exists result, certificate, rest, matcher.
  split; [done|]. split; [done|]. split; [|split].
  - rewrite (check_server_matches_profile_eq set_iter _ protocols ciphers)
      by reflexivity.
    rewrite (check_server_matches_profile_eq set_iter _ protocols ciphers) in Hmatch
      by reflexivity.
    injection Hmatch as <-. reflexivity.
  - cbn [profile_errors TLSProfilerResult_init]. by rewrite <- Hprops.
  - cbn [scan_log log_command]. unfold commands_of_run.
    by rewrite <- !app_assoc.
Qed.

(** When the server is connected and answers every command, sends a
    certificate chain and no raw path-validation error, [run] returns a
    result. *)
Lemma for_each_returns {A S} (I : TLSProfiler -> Prop) (body : S -> A -> M S) :
  (forall acc x self,
      I self -> exists acc' self', body acc x self = (inr acc', self') /\ I self') ->
  forall xs acc self,
    I self -> exists acc' self', for_each xs acc body self = (inr acc', self').
Proof.
  intros Hbody xs. induction xs as [|x xs IH]; intros acc self HI.
  - by exists acc, self.
  - destruct (Hbody acc x self HI) as (acc1 & self1 & Hstep & HI1).
    destruct (IH acc1 self1 HI1) as (acc' & self' & Hrest).
    exists acc', self'. cbn [for_each]. by rewrite bind_eq, Hstep.
Qed.

Lemma scan_supported_ciphers_and_protocols_returns (self : TLSProfiler)
    (answers : CipherSuiteScanCommand -> CipherSuiteScanResult) :
  (forall c, run_scan_command (scanner self) (server_info self) (CipherSuites c)
             = inr (answers c)) ->
  exists self', scan_supported_ciphers_and_protocols self = (inr tt, self').
Proof.
  intros Hanswers. unfold scan_supported_ciphers_and_protocols.
  match goal with
  | |- context [for_each ?xs ?acc ?body] =>
      assert (Hloop : exists acc' self',
                 for_each xs acc body self = (inr acc', self'))
  end.
  { apply (for_each_returns
             (fun s => scanner s = scanner self /\ server_info s = server_info self));
      [|by split].
    intros [[ciphers protocols] key_exchange] [name command] s [Hscanner Hinfo].
    eexists _, _. rewrite bind_eq, scan_eq, Hscanner, Hinfo, Hanswers.
    split; [reflexivity|]. by split. }
  destruct Hloop as ([[ciphers protocols] key_exchange] & self1 & Hloop).
  rewrite bind_eq, Hloop. eexists. reflexivity.
Qed.

Lemma run_returns_result (set_iter : gset string -> list string)
    (self : TLSProfiler) (info : ServerConnectivityInfo)
    (answers : forall c : ScanCommand, ScanResult c)
    (certificate : Certificate) (rest : list Certificate) :
  server_info self = Some info ->
  (forall c, run_scan_command (scanner self) (server_info self) c = inr (answers c)) ->
  received_certificate_chain (answers CertificateInfoScanCommand)
  = certificate :: rest ->
  path_validation_error_list (answers CertificateInfoScanCommand) = [] ->
  exists (r : TLSProfilerResult) (self' : TLSProfiler),
    run set_iter self = (inr (Some r), self').
Proof.
  intros Hinfo Hanswers Hchain Herrors.
  unfold run. rewrite bind_eq. cbn [get_self]. rewrite Hinfo.
  rewrite bind_eq.
  rewrite (check_certificate_eq self _ (Hanswers CertificateInfoScanCommand)).
  rewrite Hchain, Herrors.
  destruct (scan_supported_ciphers_and_protocols_returns
              (log_command CertificateInfoScanCommand self)
              (fun c => answers (CipherSuites c)))
    as (self2 & Hsurvey).
  { intros c. apply Hanswers. }
  rewrite bind_eq, Hsurvey.
  destruct (scan_supported_ciphers_and_protocols_inv _ _ _ Hsurvey)
    as (ciphers & protocols & key_exchange & ->).
  rewrite bind_eq.
  rewrite (check_server_matches_profile_eq set_iter _ protocols ciphers)
    by reflexivity.
  rewrite bind_eq.
  erewrite check_vulnerabilities_eq by apply Hanswers.
  eexists _, _. reflexivity.
Qed.

(** * The theorems at concrete servers *)

(** The matcher on a server with one illegal protocol and one illegal
    cipher: whatever the iteration order, the protocol comes first. *)
Lemma unsorted_under_every_order (set_iter : gset string -> list string) :
  (forall s : gset string, set_iter s ≡ₚ elements s) ->
  check_server_matches_profile set_iter unsorted_profiler
  = (inr [must_not_support "TLSv1.1"; must_not_support "AES128-SHA"],
     unsorted_profiler).
Proof.
  intros Hperm.
  rewrite (check_server_matches_profile_eq set_iter unsorted_profiler
             {[ "TLSv1.1" ]} {[ "AES128-SHA" ]}) by reflexivity.
  unfold illegal_protocols, illegal_ciphers. cbn.
  rewrite !difference_empty_L, !(set_iter_singleton set_iter Hperm).
  reflexivity.
Qed.

(** C5, counterexample.  The list is not sorted: with a profile that
    allows nothing and a server that speaks [TLSv1.1] with the cipher
    [AES128-SHA], the matcher returns the protocol message before the cipher
    message, and that list is not in lexicographic order.  The list is not
    fixed by the input sets either: with the same profile and a server that
    speaks [TLSv1.1] and [TLSv1], two ways of iterating the same set of
    illegal protocols, each visiting every member once, give two different
    lists. *)
Lemma matcher_errors_not_sorted :
  let quote := String (Ascii.ascii_of_nat 34) EmptyString in
  let message := fun x : string => "must not support " +:+ quote +:+ x +:+ quote in
  (check_server_matches_profile elements unsorted_profiler
   = (inr [message "TLSv1.1"; message "AES128-SHA"], unsorted_profiler)
   /\ ~ lexicographically_sorted [message "TLSv1.1"; message "AES128-SHA"])
  /\ ((forall s : gset string, elements s ≡ₚ elements s)
      /\ (forall s : gset string, reversed_elements s ≡ₚ elements s)
      /\ check_server_matches_profile elements two_protocol_profiler
         = (inr [message "TLSv1.1"; message "TLSv1"], two_protocol_profiler)
      /\ check_server_matches_profile reversed_elements two_protocol_profiler
         = (inr [message "TLSv1"; message "TLSv1.1"], two_protocol_profiler)
      /\ [message "TLSv1.1"; message "TLSv1"]
         ≠ [message "TLSv1"; message "TLSv1.1"]).
Proof.
  intros quote message. split; [split|].
  - apply unsorted_under_every_order. intros s. reflexivity.
  - intros H. inversion H as [|? ? _ Hhd]. inversion Hhd as [|? ? Hle].
    vm_compute in Hle. exact Hle.
  - split; [intros s; reflexivity|].
    split; [intros s; apply reverse_Permutation|].
    split; [vm_compute; reflexivity|].
    split; [vm_compute; reflexivity|].
    discriminate.
Qed.

Lemma elements_is_an_order (s : gset string) : elements s ≡ₚ elements s.
Proof. reflexivity. Defined.

(** C1 at a server whose raw path-validation-error list holds one entry. *)
Lemma check_certificate_raises_witness :
  run_scan_command (scanner (connected_profiler [ {| error_message := "unable to get issuer" |} ]))
    (server_info (connected_profiler [ {| error_message := "unable to get issuer" |} ]))
    CertificateInfoScanCommand
  = inr (sample_certificate_info [ {| error_message := "unable to get issuer" |} ])
  /\ check_certificate (connected_profiler [ {| error_message := "unable to get issuer" |} ])
     = (inl (Py.AttributeError "'generator' object has no attribute 'append'"),
        log_command CertificateInfoScanCommand
          (connected_profiler [ {| error_message := "unable to get issuer" |} ])).
Proof.
  split; [reflexivity|].
  apply (check_certificate_raises_on_path_validation_errors
           (connected_profiler [ {| error_message := "unable to get issuer" |} ])
           (sample_certificate_info [ {| error_message := "unable to get issuer" |} ])
           (sample_certificate 90) []).
  - reflexivity.
  - reflexivity.
  - discriminate.
Defined.

(** C3 at scenario A. *)
Lemma check_server_matches_profile_exact_witness :
  let quote := String (Ascii.ascii_of_nat 34) EmptyString in
  let message := fun x : string => "must not support " +:+ quote +:+ x +:+ quote in
  let allowed_protocols : gset string := list_to_set ["TLSv1.2"; "TLSv1.3"] in
  let allowed_ciphers : gset string := list_to_set ["X"] ∪ list_to_set [] in
  let protocols : gset string := {[ "TLSv1.2"; "TLSv1.3"; "TLSv1.0" ]} in
  let ciphers : gset string := {[ "X"; "Y" ]} in
  exists errors : list string,
    check_server_matches_profile elements scenario_A = (inr errors, scenario_A)
    /\ errors ≡ₚ (message <$> elements (protocols ∖ allowed_protocols))
                  ++ (message <$> elements (ciphers ∖ allowed_ciphers))
    /\ (forall e : string,
          e ∈ errors <->
          exists x : string,
            e = message x
            /\ ((x ∈ protocols /\ x ∉ allowed_protocols)
                \/ (x ∈ ciphers /\ x ∉ allowed_ciphers)))
    /\ (forall x y : string, message x = message y -> x = y).
Proof.
  apply (check_server_matches_profile_exact elements elements_is_an_order
           scenario_A {[ "TLSv1.2"; "TLSv1.3"; "TLSv1.0" ]} {[ "X"; "Y" ]}).
  - reflexivity.
  - reflexivity.
Defined.

(** C5, as amended, at scenario A. *)
Lemma check_server_matches_profile_order_witness :
  let quote := String (Ascii.ascii_of_nat 34) EmptyString in
  let message := fun x : string => "must not support " +:+ quote +:+ x +:+ quote in
  supported_protocols scenario_A = Some {[ "TLSv1.2"; "TLSv1.3"; "TLSv1.0" ]}
  /\ supported_ciphers scenario_A = Some {[ "X"; "Y" ]}
  /\ "X" ≠ "Y"
  /\ check_server_matches_profile elements scenario_A
     = (inr [message "TLSv1.0"; message "Y"], scenario_A)
  /\ String.length (message "Y") = 20%nat
  /\ String.get 17 (message "Y") = Some (Ascii.ascii_of_nat 34)
  /\ String.get 19 (message "Y") = Some (Ascii.ascii_of_nat 34).
Proof.
  intros quote message.
  split; [reflexivity|]. split; [reflexivity|]. split; [discriminate|].
  split; [|by repeat split].
  apply (check_server_matches_profile_order elements elements_is_an_order
           scenario_A {[ "TLSv1.2"; "TLSv1.3"; "TLSv1.0" ]} {[ "X"; "Y" ]}
           eq_refl eq_refl).
  all: first [reflexivity | discriminate].
Defined.

(** C7 at the sample server, whose ROBOT verdict is
    [VULNERABLE_WEAK_ORACLE]. *)
Lemma robot_error_iff_witness :
  exists (errors : list string) (self' : TLSProfiler),
    check_vulnerabilities (connected_profiler []) = (inr errors, self')
    /\ (robot_message ∈ errors <->
        VULNERABLE_WEAK_ORACLE = VULNERABLE_WEAK_ORACLE
        \/ VULNERABLE_WEAK_ORACLE = VULNERABLE_STRONG_ORACLE)
    /\ (VULNERABLE_WEAK_ORACLE
          ∈ [NOT_VULNERABLE_NO_ORACLE; NOT_VULNERABLE_RSA_NOT_SUPPORTED;
             UNKNOWN_INCONSISTENT_RESULTS] ->
        errors = [] ++ [ccs_injection_message]).
Proof.
  apply (robot_error_iff (connected_profiler [])
           (sample_answers [] HeartbleedScanCommand)
           (sample_answers [] OpenSslCcsInjectionScanCommand)
           (sample_answers [] RobotScanCommand)).
  - reflexivity.
  - reflexivity.
  - reflexivity.
Defined.

(** C9 at the sample server. *)
Lemma vulnerability_errors_order_witness :
  exists (errors : list string) (self' : TLSProfiler),
    check_vulnerabilities (connected_profiler []) = (inr errors, self')
    /\ (length errors <= 3)%nat
    /\ errors `sublist_of` [heartbleed_message; ccs_injection_message; robot_message]
    /\ NoDup errors.
Proof.
  apply (vulnerability_errors_order (connected_profiler [])
           (sample_answers [] HeartbleedScanCommand)
           (sample_answers [] OpenSslCcsInjectionScanCommand)
           (sample_answers [] RobotScanCommand)).
  - reflexivity.
  - reflexivity.
  - reflexivity.
Defined.

(** C6 at the [modern] profile, which allows 90 days: a certificate of 90
    days and 23 hours passes, one of 91 days does not. *)
Lemma lifespan_boundary_witness :
  (Py.days (Py.datetime_sub (not_valid_after (sample_certificate 90))
                            (not_valid_before (sample_certificate 90)))
   = maximum_certificate_lifespan modern
   /\ filter (fun e => e = lifespan_message)
        (check_certificate_properties (connected_profiler [])
           (sample_certificate 90) true).1
      = [])
  /\ (Py.days (Py.datetime_sub (not_valid_after (sample_certificate 91))
                               (not_valid_before (sample_certificate 91)))
      = maximum_certificate_lifespan modern + 1
      /\ filter (fun e => e = lifespan_message)
           (check_certificate_properties (connected_profiler [])
              (sample_certificate 91) true).1
         = [lifespan_message]).
Proof.
  split.
  - split; [reflexivity|].
    apply (lifespan_boundary (connected_profiler []) (sample_certificate 90) true).
    reflexivity.
  - split; [reflexivity|].
    apply (lifespan_boundary (connected_profiler []) (sample_certificate 91) true).
    reflexivity.
Defined.

(** C8 at an unreachable server. *)
Lemma run_without_connection_witness :
  configurations sample_catalog !! "modern" = Some modern
  /\ exists self : TLSProfiler,
       TLSProfiler_init sample_catalog unreachable (sample_scanner [])
         "localhost" "modern" = inr self
       /\ (forall e : ServerConnectivityError,
             unreachable "localhost" = inl e ->
             server_info self = None
             /\ server_error self = Some (error_message_of e)
             /\ run elements self = (inr None, self))
       /\ (forall (r : TLSProfilerResult) (self' : TLSProfiler),
             run elements self = (inr (Some r), self') ->
             (exists info, unreachable "localhost" = inr info)
             /\ server_error self = None
             /\ exists validation profile_ vulnerability : list string,
                  r = TLSProfilerResult_init validation profile_ vulnerability).
Proof.
  split; [reflexivity|].
  apply (run_without_connection elements sample_catalog unreachable
           (sample_scanner []) "localhost" "modern" modern).
  reflexivity.
Defined.

(** C10 at the sample server: the matcher finds [TLSv1.2] and
    [AES128-SHA], the certificate checks find the missing OCSP stapling. *)
Lemma run_profile_errors_order_witness :
  run elements (connected_profiler []) = (inr (Some sample_result), sample_final)
  /\ exists (result : CertificateInfoScanResult) (certificate : Certificate)
            (rest : list Certificate) (matcher : list string),
       run_scan_command (scanner (connected_profiler []))
         (server_info (connected_profiler [])) CertificateInfoScanCommand
       = inr result
       /\ received_certificate_chain result = certificate :: rest
       /\ check_server_matches_profile elements sample_final
          = (inr matcher, sample_final)
       /\ profile_errors sample_result
          = matcher
            ++ (check_certificate_properties (connected_profiler []) certificate
                  (ocsp_response_is_trusted result)).1
       /\ scan_log sample_final = scan_log (connected_profiler []) ++ commands_of_run.
Proof.
  assert (Hrun : run elements (connected_profiler [])
                 = (inr (Some sample_result), sample_final)).
  { vm_compute. reflexivity. }
  split; [exact Hrun|].
  exact (run_profile_errors_order elements (connected_profiler []) sample_final
           sample_result Hrun).
Defined.

(** * Further properties of the code *)

(** ** The survey of protocols and ciphers, forwards *)

Lemma for_each_scans {A S} (sc : SynchronousScanner)
    (si : option ServerConnectivityInfo) (body : S -> A -> M S)
    (step : S -> A -> S) (command_of : A -> ScanCommand) :
  (forall acc x self,
      scanner self = sc -> server_info self = si ->
      body acc x self = (inr (step acc x), log_command (command_of x) self)) ->
  forall xs acc self,
    scanner self = sc -> server_info self = si ->
    for_each xs acc body self
    = (inr (foldl step acc xs),
       foldl (fun self x => log_command (command_of x) self) self xs).
Proof.
  intros Hbody xs. induction xs as [|x xs IH]; intros acc self Hsc Hsi.
  - reflexivity.
  - cbn [for_each foldl]. rewrite bind_eq, (Hbody acc x self Hsc Hsi).
    by apply IH.
Qed.

Lemma foldl_log_command {A} (command_of : A -> ScanCommand) (xs : list A)
    (self : TLSProfiler) :
  foldl (fun self x => log_command (command_of x) self) self xs
  = {| target_profile := target_profile self;
       scanner := scanner self;
       server_info := server_info self;
       server_error := server_error self;
       supported_ciphers := supported_ciphers self;
       supported_protocols := supported_protocols self;
       supported_key_exchange := supported_key_exchange self;
       scan_log := scan_log self ++ (command_of <$> xs) |}.
Proof.
  revert self. induction xs as [|x xs IH]; intros self.
  - cbn. rewrite app_nil_r. by destruct self.
  - cbn [foldl]. rewrite IH. cbn. by rewrite <- app_assoc.
Qed.

Lemma scan_supported_ciphers_and_protocols_eq (self : TLSProfiler)
    (answers : CipherSuiteScanCommand -> CipherSuiteScanResult) :
  (forall c, run_scan_command (scanner self) (server_info self) (CipherSuites c)
             = inr (answers c)) ->
  scan_supported_ciphers_and_protocols self
  = (inr tt,
     {| target_profile := target_profile self;
        scanner := scanner self;
        server_info := server_info self;
        server_error := server_error self;
        supported_ciphers :=
          Some (list_to_set
                  (foldl (survey_step answers) ([], [], []) SCAN_COMMANDS).1.1);
        supported_protocols :=
          Some (list_to_set
                  (foldl (survey_step answers) ([], [], []) SCAN_COMMANDS).1.2);
        supported_key_exchange :=
          Some (foldl (survey_step answers) ([], [], []) SCAN_COMMANDS).2;
        scan_log := scan_log self ++ (CipherSuites <$> SCAN_COMMANDS.*2) |}).
Proof.
  intros Hanswers. unfold scan_supported_ciphers_and_protocols.
  rewrite bind_eq.
  rewrite (for_each_scans (scanner self) (server_info self) _
             (survey_step answers) (fun item => CipherSuites item.2));
    [| |reflexivity|reflexivity].
  - rewrite foldl_log_command.
    destruct (foldl (survey_step answers) ([], [], []) SCAN_COMMANDS)
      as [[ciphers protocols] key_exchange].
    unfold set_supported. reflexivity.
  - intros [[ciphers protocols] key_exchange] [name command] s Hsc Hsi.
    rewrite bind_eq, scan_eq, Hsc, Hsi, Hanswers. reflexivity.
Qed.

Lemma survey_fold (answers : CipherSuiteScanCommand -> CipherSuiteScanResult)
    (items : list (string * CipherSuiteScanCommand)) (acc : survey_state) :
  foldl (survey_step answers) acc items
  = (acc.1.1
     ++ (items ≫= fun item =>
           openssl_name <$> accepted_cipher_list (answers item.2)),
     acc.1.2
     ++ (items ≫= fun item =>
           match accepted_cipher_list (answers item.2) with
           | [] => []
           | _ :: _ => [item.1]
           end),
     acc.2
     ++ (items ≫= fun item =>
           omap (fun cipher =>
                   match dh_info cipher with
                   | Some info => Some (info, openssl_name cipher)
                   | None => None
                   end)
                (accepted_cipher_list (answers item.2)))).
Proof.
  revert acc. induction items as [|[name command] items IH];
    intros [[ciphers protocols] key_exchange].
  - cbn. by rewrite !app_nil_r.
  - cbn [foldl]. rewrite IH. cbn.
    destruct (accepted_cipher_list (answers command)) as [|suite suites];
      cbn; by rewrite <- ?app_assoc.
Qed.

Lemma every_command_is_surveyed (c : CipherSuiteScanCommand) :
  exists name : string, (name, c) ∈ SCAN_COMMANDS.
Proof.
  exists (match c with
          | Sslv20ScanCommand => "SSLv2"
          | Sslv30ScanCommand => "SSLv3"
          | Tlsv10ScanCommand => "TLSv1"
          | Tlsv11ScanCommand => "TLSv1.1"
          | Tlsv12ScanCommand => "TLSv1.2"
          | Tlsv13ScanCommand => "TLSv1.3"
          end).
  unfold SCAN_COMMANDS. rewrite !elem_of_cons. destruct c; auto 10.
Qed.

Lemma survey_members (answers : CipherSuiteScanCommand -> CipherSuiteScanResult) :
  let final := foldl (survey_step answers) ([], [], []) SCAN_COMMANDS in
  (forall x : string,
      x ∈ final.1.1 <->
      exists c suite, suite ∈ accepted_cipher_list (answers c)
                      /\ openssl_name suite = x)
  /\ (forall name : string,
        name ∈ final.1.2 <->
        exists c, (name, c) ∈ SCAN_COMMANDS
                  /\ accepted_cipher_list (answers c) ≠ [])
  /\ (forall (info : TempKeyInfo) (x : string),
        (info, x) ∈ final.2 <->
        exists c suite, suite ∈ accepted_cipher_list (answers c)
                        /\ dh_info suite = Some info
                        /\ openssl_name suite = x).
Proof.
  intros final. unfold final. rewrite survey_fold. cbn [fst snd app].
  split; [|split].
  - intros x. rewrite list_elem_of_bind. split.
    + intros ([name c] & Hx & _). apply list_elem_of_fmap in Hx as (suite & -> & Hsuite).
      by exists c, suite.
    + intros (c & suite & Hsuite & <-).
      destruct (every_command_is_surveyed c) as [name Hname].
      exists (name, c). split; [|done]. apply list_elem_of_fmap. by exists suite.
  - intros name. rewrite list_elem_of_bind. split.
    + intros ([name' c] & Hname & Hitem). cbn in Hname.
      destruct (accepted_cipher_list (answers c)) eqn:Haccepted;
        [by apply elem_of_nil in Hname|].
      apply list_elem_of_singleton in Hname as ->.
      exists c. split; [done|]. by rewrite Haccepted.
    + intros (c & Hitem & Haccepted). exists (name, c). split; [|done]. cbn.
      destruct (accepted_cipher_list (answers c)); [done|].
      by apply list_elem_of_singleton.
  - intros info x. rewrite list_elem_of_bind. split.
    + intros ([name c] & Hx & _). cbn in Hx.
      apply list_elem_of_omap in Hx as (suite & Hsuite & Hx).
      destruct (dh_info suite) as [info'|] eqn:Hdh; [|discriminate].
      injection Hx as -> <-. by exists c, suite.
    + intros (c & suite & Hsuite & Hdh & <-).
      destruct (every_command_is_surveyed c) as [name Hname].
      exists (name, c). split; [|done]. cbn.
      apply list_elem_of_omap. exists suite. split; [done|]. by rewrite Hdh.
Qed.

(** X1.  When the scanner answers the six cipher-suite commands, the survey
    returns and sets the three attributes: a cipher is in
    [supported_ciphers] exactly when some protocol's scan accepted a suite of
    that OpenSSL name; a name is in [supported_protocols] exactly when it is
    the [SCAN_COMMANDS] name of a command whose scan accepted at least one
    suite; [supported_key_exchange] pairs exactly the accepted suites that
    carry key-exchange information with that information.  The six commands
    are sent in the order of [SCAN_COMMANDS]; profile, scanner and connection
    are left as they were. *)
Theorem survey_collects (self : TLSProfiler)
    (answers : CipherSuiteScanCommand -> CipherSuiteScanResult) :
  (forall c, run_scan_command (scanner self) (server_info self) (CipherSuites c)
             = inr (answers c)) ->
  exists (self' : TLSProfiler) (ciphers protocols : gset string)
         (key_exchange : list (TempKeyInfo * string)),
    scan_supported_ciphers_and_protocols self = (inr tt, self')
    /\ supported_ciphers self' = Some ciphers
    /\ supported_protocols self' = Some protocols
    /\ supported_key_exchange self' = Some key_exchange
    /\ (forall x : string,
          x ∈ ciphers <->
          exists c suite, suite ∈ accepted_cipher_list (answers c)
                          /\ openssl_name suite = x)
    /\ (forall name : string,
          name ∈ protocols <->
          exists c, (name, c) ∈ SCAN_COMMANDS
                    /\ accepted_cipher_list (answers c) ≠ [])
    /\ (forall (info : TempKeyInfo) (x : string),
          (info, x) ∈ key_exchange <->
          exists c suite, suite ∈ accepted_cipher_list (answers c)
                          /\ dh_info suite = Some info
                          /\ openssl_name suite = x)
    /\ scan_log self' = scan_log self ++ (CipherSuites <$> SCAN_COMMANDS.*2)
    /\ target_profile self' = target_profile self
    /\ scanner self' = scanner self
    /\ server_info self' = server_info self
    /\ server_error self' = server_error self.
Proof.
  intros Hanswers.
  destruct (survey_members answers) as (Hciphers & Hprotocols & Hkx).
  eexists _, _, _, _.
  split; [by apply scan_supported_ciphers_and_protocols_eq|].
  cbn [supported_ciphers supported_protocols supported_key_exchange scan_log
       target_profile scanner server_info server_error].
  repeat split; try done.
  - rewrite elem_of_list_to_set. apply Hciphers.
  - rewrite elem_of_list_to_set. apply Hciphers.
  - rewrite elem_of_list_to_set. apply Hprotocols.
  - rewrite elem_of_list_to_set. apply Hprotocols.
  - apply Hkx.
  - apply Hkx.
Qed.

(** X2.  What the survey leaves in [self] is coherent: every cipher listed
    in [supported_key_exchange] is a supported cipher, every supported
    protocol is one of the six names of [SCAN_COMMANDS], and the set of
    supported protocols is empty exactly when the set of supported ciphers
    is. *)
Theorem survey_invariants (self self' : TLSProfiler) (u : unit)
    (answers : CipherSuiteScanCommand -> CipherSuiteScanResult) :
  (forall c, run_scan_command (scanner self) (server_info self) (CipherSuites c)
             = inr (answers c)) ->
  scan_supported_ciphers_and_protocols self = (inr u, self') ->
  exists (ciphers protocols : gset string)
         (key_exchange : list (TempKeyInfo * string)),
    supported_ciphers self' = Some ciphers
    /\ supported_protocols self' = Some protocols
    /\ supported_key_exchange self' = Some key_exchange
    /\ (forall info x, (info, x) ∈ key_exchange -> x ∈ ciphers)
    /\ (forall name, name ∈ protocols -> name ∈ SCAN_COMMANDS.*1)
    /\ (protocols = ∅ <-> ciphers = ∅).
Proof.
  intros Hanswers Hsurvey.
  rewrite (scan_supported_ciphers_and_protocols_eq self answers Hanswers) in Hsurvey.
  apply (f_equal snd) in Hsurvey. cbn [snd] in Hsurvey. subst self'.
  destruct (survey_members answers) as (Hciphers & Hprotocols & Hkx).
  cbn [supported_ciphers supported_protocols supported_key_exchange].
  eexists _, _, _. split; [reflexivity|]. split; [reflexivity|].
  split; [reflexivity|]. split; [|split; [|split]].
  - intros info x Hx. rewrite elem_of_list_to_set. apply Hciphers.
    apply Hkx in Hx as (c & suite & Hsuite & _ & Hname). by exists c, suite.
  - intros name Hname. rewrite elem_of_list_to_set in Hname.
    apply Hprotocols in Hname as (c & Hitem & _).
    apply list_elem_of_fmap. by exists (name, c).
  - intros Hempty. apply set_eq. intros x. split; [|by intros ?%not_elem_of_empty].
    rewrite elem_of_list_to_set. intros (c & suite & Hsuite & _)%Hciphers.
    destruct (every_command_is_surveyed c) as [name Hname].
    assert (Hin : name ∈ (∅ : gset string)).
    { rewrite <- Hempty, elem_of_list_to_set. apply Hprotocols. exists c.
      split; [done|]. intros Hnil. rewrite Hnil in Hsuite.
      by apply elem_of_nil in Hsuite. }
    by apply not_elem_of_empty in Hin.
  - intros Hempty. apply set_eq. intros name. split; [|by intros ?%not_elem_of_empty].
    rewrite elem_of_list_to_set. intros (c & _ & Haccepted)%Hprotocols.
    destruct (accepted_cipher_list (answers c)) as [|suite suites] eqn:Hlist;
      [done|].
    assert (Hin : openssl_name suite ∈ (∅ : gset string)).
    { rewrite <- Hempty, elem_of_list_to_set. apply Hciphers. exists c, suite.
      split; [|done]. rewrite Hlist. apply list_elem_of_here. }
    by apply not_elem_of_empty in Hin.
Qed.

(** ** The survey of protocols and ciphers, when a scan fails *)

Lemma bind_raises_inv {A B} (m : M A) (k : A -> M B) (self self' : TLSProfiler)
    (e : Py.exn) :
  (m ≫= k) self = (inl e, self') ->
  m self = (inl e, self')
  \/ exists (a : A) (self1 : TLSProfiler),
       m self = (inr a, self1) /\ k a self1 = (inl e, self').
Proof.
  rewrite bind_eq. destruct (m self) as [[e' | a] self1]; intros H.
  - left. by injection H as -> ->.
  - right. by exists a, self1.
Qed.

(** A loop whose body sends one command per item and raises exactly when
    the scanner does: either every command is answered, or the loop stops at
    the first one that is not. *)
Lemma for_each_scan_cases {A S} (body : S -> A -> M S)
    (command_of : A -> ScanCommand) :
  (forall acc x self,
      exists out,
        body acc x self = (out, log_command (command_of x) self)
        /\ forall e, out = inl e <->
                     run_scan_command (scanner self) (server_info self)
                       (command_of x) = inl e) ->
  forall xs acc self,
    (exists acc',
        for_each xs acc body self
        = (inr acc', foldl (fun s x => log_command (command_of x) s) self xs)
        /\ forall x, x ∈ xs ->
             exists r, run_scan_command (scanner self) (server_info self)
                         (command_of x) = inr r)
    \/ (exists pre x post e,
           xs = pre ++ x :: post
           /\ (forall y, y ∈ pre ->
                 exists r, run_scan_command (scanner self) (server_info self)
                             (command_of y) = inr r)
           /\ run_scan_command (scanner self) (server_info self) (command_of x)
              = inl e
           /\ for_each xs acc body self
              = (inl e,
                 foldl (fun s x => log_command (command_of x) s) self
                   (pre ++ [x]))).
Proof.
  intros Hbody xs. induction xs as [|x xs IH]; intros acc self.
  - left. exists acc. split; [reflexivity|]. by intros x ?%elem_of_nil.
  - destruct (Hbody acc x self) as (out & Hstep & Hout).
    destruct out as [e | acc1].
    + right. exists [], x, xs, e. split; [done|].
      split; [by intros y ?%elem_of_nil|]. split; [by apply Hout|].
      cbn [for_each]. by rewrite bind_eq, Hstep.
    + assert (Hx : exists r, run_scan_command (scanner self) (server_info self)
                               (command_of x) = inr r).
      { destruct (run_scan_command (scanner self) (server_info self)
                    (command_of x)) as [e | r] eqn:Hscan; [|by exists r].
        destruct (Hout e) as [_ Hback]. discriminate (Hback eq_refl). }
      destruct (IH acc1 (log_command (command_of x) self))
        as [(acc' & Hloop & Hall) | (pre & y & post & e & -> & Hpre & Hy & Hloop)].
      * left. exists acc'. split.
        -- cbn [for_each foldl]. by rewrite bind_eq, Hstep.
        -- intros z [-> | Hz]%elem_of_cons; [done | by apply Hall].
      * right. exists (x :: pre), y, post, e. split; [done|]. split.
        -- intros z [-> | Hz]%elem_of_cons; [done | by apply Hpre].
        -- split; [exact Hy|]. cbn [for_each foldl app].
           by rewrite bind_eq, Hstep.
Qed.

Lemma survey_cases (self : TLSProfiler) :
  (exists self',
      scan_supported_ciphers_and_protocols self = (inr tt, self')
      /\ forall c, exists r,
           run_scan_command (scanner self) (server_info self) (CipherSuites c)
           = inr r)
  \/ (exists before item after e,
         SCAN_COMMANDS = before ++ item :: after
         /\ (forall earlier, earlier ∈ before ->
               exists r, run_scan_command (scanner self) (server_info self)
                           (CipherSuites earlier.2) = inr r)
         /\ run_scan_command (scanner self) (server_info self)
              (CipherSuites item.2) = inl e
         /\ scan_supported_ciphers_and_protocols self
            = (inl e,
               {| target_profile := target_profile self;
                  scanner := scanner self;
                  server_info := server_info self;
                  server_error := server_error self;
                  supported_ciphers := supported_ciphers self;
                  supported_protocols := supported_protocols self;
                  supported_key_exchange := supported_key_exchange self;
                  scan_log :=
                    scan_log self
                    ++ (CipherSuites <$> (before ++ [item]).*2) |})).
Proof.
  unfold scan_supported_ciphers_and_protocols.
  match goal with
  | |- context [for_each ?items ?acc0 ?body] =>
      assert (Hbody :
                forall acc x s,
                  exists out,
                    body acc x s = (out, log_command (CipherSuites x.2) s)
                    /\ forall e, out = inl e <->
                                 run_scan_command (scanner s) (server_info s)
                                   (CipherSuites x.2) = inl e);
      [| destruct (for_each_scan_cases body (fun item => CipherSuites item.2)
                     Hbody items acc0 self)
           as [(acc' & Hloop & Hall)
              | (pre & x & post & e & Hsplit & Hpre & Hx & Hloop)] ]
  end.
  - intros [[ciphers protocols] key_exchange] [name command] s. cbn [snd].
    destruct (run_scan_command (scanner s) (server_info s)
                (CipherSuites command)) as [e | r] eqn:Hscan.
    + exists (inl e). split; [by rewrite bind_eq, scan_eq, Hscan|].
      intros e'. split; congruence.
    + eexists. split; [rewrite bind_eq, scan_eq, Hscan; reflexivity|].
      intros e'. split; discriminate.
  - left. destruct acc' as [[ciphers protocols] key_exchange].
    eexists. split; [by rewrite bind_eq, Hloop|].
    intros c. destruct (every_command_is_surveyed c) as [name Hname].
    apply (Hall (name, c) Hname).
  - right. exists pre, x, post, e. split; [done|]. split; [done|].
    split; [done|]. rewrite bind_eq, Hloop, foldl_log_command.
    by rewrite <- list_fmap_compose.
Qed.

(** X3.  If a cipher-suite scan raises, the survey raises that exception:
    the one of the first command, in the order of [SCAN_COMMANDS], that the
    scanner does not answer.  Nothing is sent after it, and the three
    attributes of [self] keep the values they had (none, on a fresh
    object): what the earlier scans found is dropped. *)
Theorem survey_failure (self : TLSProfiler) :
  (forall c e0,
      run_scan_command (scanner self) (server_info self) (CipherSuites c) = inl e0 ->
      exists e self',
        scan_supported_ciphers_and_protocols self = (inl e, self'))
  /\ (forall e self',
        scan_supported_ciphers_and_protocols self = (inl e, self') ->
        exists before item after,
          SCAN_COMMANDS = before ++ item :: after
          /\ (forall earlier, earlier ∈ before ->
                exists r, run_scan_command (scanner self) (server_info self)
                            (CipherSuites earlier.2) = inr r)
          /\ run_scan_command (scanner self) (server_info self)
               (CipherSuites item.2) = inl e
          /\ scan_log self'
             = scan_log self ++ (CipherSuites <$> (before ++ [item]).*2)
          /\ supported_ciphers self' = supported_ciphers self
          /\ supported_protocols self' = supported_protocols self
          /\ supported_key_exchange self' = supported_key_exchange self).
Proof.
  destruct (survey_cases self)
    as [(self1 & Hok & Hall)
       | (before & item & after & e1 & Hsplit & Hbefore & Hitem & Hraise)].
  - split.
    + intros c e0 Hc. destruct (Hall c) as [r Hr]. congruence.
    + intros e self' H. congruence.
  - split.
    + intros _ _ _. eexists _, _. exact Hraise.
    + intros e self' H. rewrite Hraise in H. injection H as <- <-.
      exists before, item, after. by repeat split.
Qed.

(** ** The matcher and the survey *)

Lemma check_server_matches_profile_unset (set_iter : gset string -> list string)
    (self : TLSProfiler) :
  supported_protocols self = None ->
  check_server_matches_profile set_iter self
  = (inl (Py.AttributeError
            "'TLSProfiler' object has no attribute 'supported_protocols'"),
     self).
Proof.
  intros H. unfold check_server_matches_profile.
  rewrite bind_eq. cbn [get_self]. rewrite bind_eq. unfold getattr.
  by rewrite H.
Qed.

(** X4.  The matcher reads what the survey stored.  On an object fresh from
    [__init__] it raises [AttributeError], naming [supported_protocols], and
    leaves the object as it is; on an object left by a survey that returned,
    it returns a list and never raises. *)
Theorem matcher_needs_survey (set_iter : gset string -> list string) :
  (forall PROFILES perform scanner0 domain target_profile_name self,
      TLSProfiler_init PROFILES perform scanner0 domain target_profile_name
      = inr self ->
      check_server_matches_profile set_iter self
      = (inl (Py.AttributeError
                "'TLSProfiler' object has no attribute 'supported_protocols'"),
         self))
  /\ (forall self u self',
        scan_supported_ciphers_and_protocols self = (inr u, self') ->
        exists errors : list string,
          check_server_matches_profile set_iter self' = (inr errors, self')).
Proof.
  split.
  - intros PROFILES perform scanner0 domain name self Hinit.
    apply check_server_matches_profile_unset.
    unfold TLSProfiler_init in Hinit.
    destruct (configurations PROFILES !! name); [|discriminate].
    destruct (perform domain); injection Hinit as <-; reflexivity.
  - intros self u self' Hsurvey.
    apply scan_supported_ciphers_and_protocols_inv in Hsurvey
      as (ciphers & protocols & key_exchange & ->).
    eexists. by apply (check_server_matches_profile_eq set_iter _ protocols ciphers).
Qed.

Lemma fmap_eq_nil {A B} (f : A -> B) (l : list A) : f <$> l = [] <-> l = [].
Proof. split; [apply fmap_nil_inv | by intros ->]. Qed.

Lemma set_iter_nil (set_iter : gset string -> list string) (s : gset string) :
  (forall s : gset string, set_iter s ≡ₚ elements s) ->
  set_iter s = [] <-> s = ∅.
Proof.
  intros Hperm. split.
  - intros Hnil. apply set_eq. intros x.
    rewrite <- (elem_of_set_iter set_iter Hperm), Hnil.
    split; [by intros ?%elem_of_nil | by intros ?%not_elem_of_empty].
  - intros ->. by apply set_iter_empty.
Qed.

(** X5.  Once the survey has run, the matcher returns the empty list
    exactly when every supported protocol is in the profile's
    [tls_versions] and every supported cipher is among the profile's
    [ciphersuites] or OpenSSL-named ciphers; in general the list has one
    entry per illegal protocol plus one per illegal cipher. *)
Theorem matcher_empty_iff (set_iter : gset string -> list string)
    (self : TLSProfiler) (protocols ciphers : gset string) :
  (forall s : gset string, set_iter s ≡ₚ elements s) ->
  supported_protocols self = Some protocols ->
  supported_ciphers self = Some ciphers ->
  exists errors : list string,
    check_server_matches_profile set_iter self = (inr errors, self)
    /\ (errors = [] <->
        (forall x, x ∈ protocols -> x ∈ tls_versions (target_profile self))
        /\ (forall x, x ∈ ciphers ->
                      x ∈ ciphersuites (target_profile self)
                      \/ x ∈ ciphers_openssl (target_profile self)))
    /\ length errors
       = (size (protocols ∖ list_to_set (tls_versions (target_profile self)))
          + size (ciphers
                  ∖ list_to_set (ciphersuites (target_profile self)
                                 ++ ciphers_openssl (target_profile self))))%nat.
Proof.
  intros Hperm Hp Hc. eexists.
  split; [by apply check_server_matches_profile_eq|]. split.
  - rewrite app_nil, !fmap_eq_nil, !(set_iter_nil set_iter _ Hperm).
    unfold illegal_protocols, illegal_ciphers.
    split.
    + intros [Hprotocols Hciphers]. split; intros x Hx.
      * destruct (decide (x ∈ tls_versions (target_profile self))) as [|Hnot];
          [done|].
        assert (Hin : x ∈ (∅ : gset string)).
        { rewrite <- Hprotocols, elem_of_difference, elem_of_list_to_set. done. }
        by apply not_elem_of_empty in Hin.
      * destruct (decide (x ∈ ciphersuites (target_profile self)
                              ++ ciphers_openssl (target_profile self)))
          as [Hin | Hnot]; [by apply elem_of_app in Hin|].
        assert (Hin : x ∈ (∅ : gset string)).
        { rewrite <- Hciphers, elem_of_difference, elem_of_list_to_set. done. }
        by apply not_elem_of_empty in Hin.
    + intros [Hprotocols Hciphers]. split; apply set_eq; intros x;
        rewrite elem_of_difference, elem_of_list_to_set;
        (split; [|by intros ?%not_elem_of_empty]); intros [Hx Hnot];
        exfalso; apply Hnot.
      * by apply Hprotocols.
      * apply elem_of_app. by apply Hciphers.
  - rewrite length_app, !length_fmap, !Hperm. reflexivity.
Qed.

(** ** Construction *)

(** X6.  [__init__] raises [KeyError] exactly when the profile name is not
    a key of the catalog's configurations, whatever the connectivity test
    would say.  Otherwise it returns an object holding that profile and the
    scanner, with no survey attribute set and nothing scanned, and with
    exactly one of [server_info] and [server_error] set: the handle when the
    test succeeded, the message when it failed. *)
Theorem init_outcome (PROFILES : Catalog)
    (perform : string -> ServerConnectivityError + ServerConnectivityInfo)
    (scanner0 : SynchronousScanner) (domain target_profile_name : string) :
  (configurations PROFILES !! target_profile_name = None <->
   TLSProfiler_init PROFILES perform scanner0 domain target_profile_name
   = inl (Py.KeyError target_profile_name))
  /\ (forall profile,
        configurations PROFILES !! target_profile_name = Some profile ->
        exists self,
          TLSProfiler_init PROFILES perform scanner0 domain target_profile_name
          = inr self
          /\ target_profile self = profile
          /\ scanner self = scanner0
          /\ supported_ciphers self = None
          /\ supported_protocols self = None
          /\ supported_key_exchange self = None
          /\ scan_log self = []
          /\ (server_info self = None <-> server_error self ≠ None)
          /\ (forall info, perform domain = inr info <-> server_info self = Some info)
          /\ (forall e, perform domain = inl e ->
                        server_error self = Some (error_message_of e))).
Proof.
  unfold TLSProfiler_init. split.
  - destruct (configurations PROFILES !! target_profile_name); [|done].
    split; [discriminate|]. destruct (perform domain); discriminate.
  - intros profile ->.
    destruct (perform domain) as [e | info]; eexists; (split; [reflexivity|]);
      cbn; repeat split; try done; try congruence.
Qed.

(** ** The certificate validator, when it returns *)

(** X7.  When the scanner reports an empty certificate chain,
    [check_certificate] raises [IndexError] at [received_certificate_chain[0]],
    whatever the other facts of the scan are; the certificate scan is the
    only command sent. *)
Theorem check_certificate_empty_chain (self : TLSProfiler)
    (result : CertificateInfoScanResult) :
  run_scan_command (scanner self) (server_info self) CertificateInfoScanCommand
  = inr result ->
  received_certificate_chain result = [] ->
  check_certificate self
  = (inl (Py.IndexError "list index out of range"),
     log_command CertificateInfoScanCommand self).
Proof.
  intros Hscan Hchain. by rewrite (check_certificate_eq self result Hscan), Hchain.
Qed.

Lemma failed_path_messages_nil (results : list PathValidationResult) :
  failed_path_messages results = []
  <-> Forall (fun r => was_validation_successful r = true) results.
Proof.
  unfold failed_path_messages. induction results as [|r results IH]; cbn.
  - split; [constructor | done].
  - rewrite Forall_cons, <- IH. destruct (was_validation_successful r); cbn.
    + split; [by intros ? | by intros [_ ?]].
    + split; [discriminate | by intros [? _]].
Qed.

Lemma failed_path_messages_length (results : list PathValidationResult) :
  (length (failed_path_messages results) <= length results)%nat.
Proof.
  unfold failed_path_messages. induction results as [|r results IH]; cbn; [lia|].
  destruct (was_validation_successful r); cbn; lia.
Qed.

Lemma failed_path_messages_elem (results : list PathValidationResult) (x : string) :
  x ∈ failed_path_messages results ->
  exists r, r ∈ results
            /\ was_validation_successful r = false
            /\ x = "validation not successful: " +:+ verify_string r
                   +:+ " (trust store " +:+ trust_store_name r +:+ ")".
Proof.
  unfold failed_path_messages. induction results as [|r results IH]; cbn.
  - by intros ?%elem_of_nil.
  - destruct (was_validation_successful r) eqn:Hok; cbn.
    + intros (r' & Hr' & H)%IH. exists r'. split; [by apply list_elem_of_further|done].
    + intros [-> | Hx]%elem_of_cons.
      * exists r. split; [apply list_elem_of_here | done].
      * apply IH in Hx as (r' & Hr' & H). exists r'.
        split; [by apply list_elem_of_further | done].
Qed.

Lemma optional_message_nil (condition : bool) (x : string) :
  (if condition then [x] else []) = [] <-> condition = false.
Proof. destruct condition; split; congruence. Qed.

(** X8.  When the scanner reports a certificate chain and no raw
    path-validation error, [check_certificate] returns, and its validation
    list is empty exactly when every trust store validated the path, the
    leaf matches the hostname, the chain is in order, the chain holds no
    SHA-1 signature and no legacy Symantec anchor, and the leaf carries at
    least two SCTs.  The list never has more entries than trust stores plus
    five, and the other two values returned are those of
    [check_certificate_properties] on the first certificate of the chain. *)
Theorem validation_clean_iff (self : TLSProfiler)
    (result : CertificateInfoScanResult) (certificate : Certificate)
    (rest : list Certificate) :
  run_scan_command (scanner self) (server_info self) CertificateInfoScanCommand
  = inr result ->
  received_certificate_chain result = certificate :: rest ->
  path_validation_error_list result = [] ->
  exists (validation profile : list string) (pub_key_type : string),
    check_certificate self
    = (inr (validation, profile, pub_key_type),
       log_command CertificateInfoScanCommand self)
    /\ (validation = [] <->
        Forall (fun r => was_validation_successful r = true)
               (path_validation_result_list result)
        /\ leaf_certificate_subject_matches_hostname result = true
        /\ received_chain_has_valid_order result = true
        /\ verified_chain_has_sha1_signature result = false
        /\ verified_chain_has_legacy_symantec_anchor result = false
        /\ 2 <= leaf_certificate_signed_certificate_timestamps_count result)
    /\ (length validation <= length (path_validation_result_list result) + 5)%nat
    /\ (profile, pub_key_type)
       = check_certificate_properties self certificate
           (ocsp_response_is_trusted result).
Proof.
  intros Hscan Hchain Herrors. eexists _, _, _.
  split; [by rewrite (check_certificate_eq self result Hscan), Hchain, Herrors|].
  split; [|split].
  - unfold validation_findings.
    rewrite !app_nil, !optional_message_nil, failed_path_messages_nil,
      !negb_false_iff, Z.ltb_ge. tauto.
  - unfold validation_findings. rewrite !length_app.
    pose proof (failed_path_messages_length (path_validation_result_list result)).
    destruct (negb (leaf_certificate_subject_matches_hostname result)),
      (negb (received_chain_has_valid_order result)),
      (verified_chain_has_sha1_signature result),
      (verified_chain_has_legacy_symantec_anchor result),
      (leaf_certificate_signed_certificate_timestamps_count result <? 2);
      cbn [length]; lia.
  - by destruct (check_certificate_properties self certificate
                   (ocsp_response_is_trusted result)).
Qed.

(** X9.  On the same path, the validation list holds a message about SCTs
    exactly when the leaf carries fewer than two: two SCTs give none, one
    gives the message naming the count 1.  When present, the message names
    the count the scanner reported and is the last entry of the list. *)
Theorem sct_boundary (self : TLSProfiler)
    (result : CertificateInfoScanResult) (certificate : Certificate)
    (rest : list Certificate) :
  run_scan_command (scanner self) (server_info self) CertificateInfoScanCommand
  = inr result ->
  received_certificate_chain result = certificate :: rest ->
  path_validation_error_list result = [] ->
  exists (validation profile : list string) (pub_key_type : string),
    check_certificate self
    = (inr (validation, profile, pub_key_type),
       log_command CertificateInfoScanCommand self)
    /\ ((exists m : Z, sct_message m ∈ validation) <->
        leaf_certificate_signed_certificate_timestamps_count result < 2)
    /\ (leaf_certificate_signed_certificate_timestamps_count result < 2 ->
        last validation
        = Some (sct_message
                  (leaf_certificate_signed_certificate_timestamps_count result))).
Proof.
  intros Hscan Hchain Herrors. eexists _, _, _.
  split; [by rewrite (check_certificate_eq self result Hscan), Hchain, Herrors|].
  unfold validation_findings.
  destruct (Z.ltb_spec
              (leaf_certificate_signed_certificate_timestamps_count result) 2)
    as [Hlt | Hge].
  - split.
    + split; [done|]. intros _.
      exists (leaf_certificate_signed_certificate_timestamps_count result).
      rewrite !elem_of_app. do 5 right. apply list_elem_of_here.
    + intros _. rewrite !app_assoc. apply last_snoc.
  - split; [|lia]. split; [|lia]. intros [m Hm]. exfalso.
    rewrite !elem_of_app in Hm.
    destruct Hm as [Hm | [Hm | [Hm | [Hm | [Hm | Hm]]]]].
    + apply failed_path_messages_elem in Hm as (r & _ & _ & Hm).
      discriminate Hm.
    + destruct (negb (leaf_certificate_subject_matches_hostname result));
        [apply list_elem_of_singleton in Hm; discriminate Hm
        | by apply elem_of_nil in Hm].
    + destruct (negb (received_chain_has_valid_order result));
        [apply list_elem_of_singleton in Hm; discriminate Hm
        | by apply elem_of_nil in Hm].
    + destruct (verified_chain_has_sha1_signature result);
        [apply list_elem_of_singleton in Hm; discriminate Hm
        | by apply elem_of_nil in Hm].
    + destruct (verified_chain_has_legacy_symantec_anchor result);
        [apply list_elem_of_singleton in Hm; discriminate Hm
        | by apply elem_of_nil in Hm].
    + by apply elem_of_nil in Hm.
Qed.

(** ** The certificate checks against the profile, check by check *)

Lemma check_certificate_properties_eq (self : TLSProfiler)
    (certificate : Certificate) (ocsp_stapling : bool) :
  check_certificate_properties self certificate ocsp_stapling
  = ((if maximum_certificate_lifespan (target_profile self)
         <? Py.days (Py.datetime_sub (not_valid_after certificate)
                                     (not_valid_before certificate))
      then [lifespan_message] else [])
     ++ (if negb (Py.contains (certificate_types (target_profile self))
                    (Py.lower (_cert_type_string (public_key certificate))))
         then [wrong_type_message (_cert_type_string (public_key certificate))]
         else [])
     ++ (if rsa_size_wrong (target_profile self) (public_key certificate)
         then [rsa_size_message]
         else if curve_wrong (target_profile self) (public_key certificate)
              then [curve_message] else [])
     ++ (if negb (Py.contains (certificate_signatures (target_profile self))
                    (signature_algorithm_oid_name certificate))
         then [signature_message] else [])
     ++ (if negb ocsp_stapling then [ocsp_message] else []),
     _cert_type_string (public_key certificate)).
Proof.
  unfold check_certificate_properties, rsa_size_wrong, curve_wrong.
  repeat match goal with
         | |- context [if ?b then _ else _] => destruct b
         end;
    reflexivity.
Qed.

Lemma optional_message_elem (condition : bool) (x y : string) :
  y ∈ (if condition then [x] else []) <-> condition = true /\ y = x.
Proof.
  destruct condition.
  - rewrite list_elem_of_singleton. split; [done | by intros [_ ?]].
  - split; [by intros ?%elem_of_nil | by intros [? _]].
Qed.

Lemma key_message_elem (rsa curve : bool) (y : string) :
  y ∈ (if rsa then [rsa_size_message]
       else if curve then [curve_message] else [])
  <-> (rsa = true /\ y = rsa_size_message)
      \/ (rsa = false /\ curve = true /\ y = curve_message).
Proof.
  destruct rsa, curve; rewrite ?list_elem_of_singleton, ?elem_of_nil;
    split; try tauto; intros [[? ?] | (? & ? & ?)]; done.
Qed.

Lemma key_message_nil (rsa curve : bool) :
  (if rsa then [rsa_size_message]
   else if curve then [curve_message] else []) = []
  <-> rsa = false /\ curve = false.
Proof. destruct rsa, curve; split; try done; intros [? ?]; done. Qed.

Lemma contains_false (xs : list string) (x : string) :
  negb (Py.contains xs x) = true <-> x ∉ xs.
Proof.
  unfold Py.contains. rewrite negb_true_iff, bool_decide_eq_false. done.
Qed.

Lemma rsa_size_wrong_true (profile : Profile) (pub_key : PublicKey) :
  rsa_size_wrong profile pub_key = true
  <-> exists n size : Z,
        pub_key = RSAPublicKey n
        /\ rsa_key_size profile = Some size /\ size ≠ 0 /\ n ≠ size.
Proof.
  unfold rsa_size_wrong. rewrite !andb_true_iff. split.
  - intros [[Hrsa Htruthy] Hdiffers].
    destruct pub_key as [n| | | | |]; try discriminate Hrsa.
    destruct (rsa_key_size profile) as [size|]; [|discriminate Htruthy].
    exists n, size. cbn in *.
    apply negb_true_iff, Z.eqb_neq in Htruthy, Hdiffers. done.
  - intros (n & size & -> & -> & Hsize & Hn). cbn.
    by rewrite !negb_true_iff, !Z.eqb_neq.
Qed.

Lemma curve_wrong_true (profile : Profile) (pub_key : PublicKey) :
  curve_wrong profile pub_key = true
  <-> exists (c : string) (curves : list string),
        pub_key = EllipticCurvePublicKey c
        /\ certificate_curves profile = Some curves
        /\ curves ≠ [] /\ c ∉ curves.
Proof.
  unfold curve_wrong. rewrite !andb_true_iff, contains_false. split.
  - intros [[Hec Htruthy] Hcurve].
    destruct pub_key as [|c| | | |]; try discriminate Hec.
    destruct (certificate_curves profile) as [[|curve curves]|];
      try discriminate Htruthy.
    by exists c, (curve :: curves).
  - intros (c & curves & -> & -> & Hcurves & Hc). cbn.
    by destruct curves.
Qed.

(** X10.  The certificate passes the profile, that is
    [check_certificate_properties] returns no error, exactly when its
    lifespan in whole days does not exceed the profile's maximum, the
    lower-cased key family is one of the profile's certificate types, an RSA
    key has the required size where the profile requires one (not [null],
    not 0), an elliptic-curve key is on one of the profile's curves where
    the profile lists any, the signature algorithm is one of the profile's,
    and OCSP stapling is trusted. *)
Theorem properties_clean_iff (self : TLSProfiler) (certificate : Certificate)
    (ocsp_stapling : bool) :
  let P := target_profile self in
  (check_certificate_properties self certificate ocsp_stapling).1 = []
  <-> Py.days (Py.datetime_sub (not_valid_after certificate)
                               (not_valid_before certificate))
      <= maximum_certificate_lifespan P
      /\ Py.lower (_cert_type_string (public_key certificate))
           ∈ certificate_types P
      /\ ~ (exists n size : Z,
              public_key certificate = RSAPublicKey n
              /\ rsa_key_size P = Some size /\ size ≠ 0 /\ n ≠ size)
      /\ ~ (exists (c : string) (curves : list string),
              public_key certificate = EllipticCurvePublicKey c
              /\ certificate_curves P = Some curves
              /\ curves ≠ [] /\ c ∉ curves)
      /\ signature_algorithm_oid_name certificate ∈ certificate_signatures P
      /\ ocsp_stapling = true.
Proof.
  intros P. rewrite check_certificate_properties_eq. cbn [fst]. fold P.
  rewrite <- rsa_size_wrong_true, <- curve_wrong_true.
  rewrite !app_nil, key_message_nil, !optional_message_nil, !negb_false_iff,
    Z.ltb_ge, !not_true_iff_false.
  unfold Py.contains. rewrite !bool_decide_eq_true. tauto.
Qed.

Lemma properties_errors_elem (self : TLSProfiler) (certificate : Certificate)
    (ocsp_stapling : bool) (y : string) :
  y ∈ (check_certificate_properties self certificate ocsp_stapling).1
  <-> (maximum_certificate_lifespan (target_profile self)
       < Py.days (Py.datetime_sub (not_valid_after certificate)
                                  (not_valid_before certificate))
       /\ y = lifespan_message)
      \/ ((Py.lower (_cert_type_string (public_key certificate))
             ∉ certificate_types (target_profile self))
          /\ y = wrong_type_message (_cert_type_string (public_key certificate)))
      \/ (rsa_size_wrong (target_profile self) (public_key certificate) = true
          /\ y = rsa_size_message)
      \/ (rsa_size_wrong (target_profile self) (public_key certificate) = false
          /\ curve_wrong (target_profile self) (public_key certificate) = true
          /\ y = curve_message)
      \/ ((signature_algorithm_oid_name certificate
             ∉ certificate_signatures (target_profile self))
          /\ y = signature_message)
      \/ (ocsp_stapling = false /\ y = ocsp_message).
Proof.
  rewrite check_certificate_properties_eq. cbn [fst].
  rewrite !elem_of_app, !optional_message_elem, key_message_elem,
    !contains_false, Z.ltb_lt, negb_true_iff.
  tauto.
Qed.

Lemma curve_wrong_not_rsa (profile : Profile) (pub_key : PublicKey) :
  curve_wrong profile pub_key = true -> rsa_size_wrong profile pub_key = false.
Proof.
  intros (c & curves & -> & _)%curve_wrong_true. reflexivity.
Qed.

(** X11.  The two key-property checks exclude one another.  The RSA
    message is emitted exactly for an RSA key whose size differs from the
    size the profile requires, when the profile requires one (a [null] or
    zero [rsa_key_size] switches the check off); the curve message exactly
    for an elliptic-curve key whose curve is not among the profile's
    curves, when the profile lists any (a [null] or empty
    [certificate_curves] switches the check off).  A key of any other
    family gets neither. *)
Theorem key_property_messages (self : TLSProfiler) (certificate : Certificate)
    (ocsp_stapling : bool) :
  let P := target_profile self in
  let errors := (check_certificate_properties self certificate ocsp_stapling).1 in
  (rsa_size_message ∈ errors <->
   exists n size : Z,
     public_key certificate = RSAPublicKey n
     /\ rsa_key_size P = Some size /\ size ≠ 0 /\ n ≠ size)
  /\ (curve_message ∈ errors <->
      exists (c : string) (curves : list string),
        public_key certificate = EllipticCurvePublicKey c
        /\ certificate_curves P = Some curves
        /\ curves ≠ [] /\ c ∉ curves)
  /\ ~ (rsa_size_message ∈ errors /\ curve_message ∈ errors).
Proof.
  intros P errors. unfold errors.
  rewrite <- rsa_size_wrong_true, <- curve_wrong_true.
  assert (Hrsa :
            rsa_size_message
              ∈ (check_certificate_properties self certificate ocsp_stapling).1
            <-> rsa_size_wrong P (public_key certificate) = true).
  { rewrite properties_errors_elem. fold P. split.
    - intros [[_ H] | [[_ H] | [[H _] | [(_ & _ & H) | [[_ H] | [_ H]]]]]];
        try discriminate H; done.
    - intros H. do 2 right. left. done. }
  assert (Hcurve :
            curve_message
              ∈ (check_certificate_properties self certificate ocsp_stapling).1
            <-> curve_wrong P (public_key certificate) = true).
  { rewrite properties_errors_elem. fold P. split.
    - intros [[_ H] | [[_ H] | [[_ H] | [(_ & H & _) | [[_ H] | [_ H]]]]]];
        try discriminate H; done.
    - intros H. do 3 right. left. split; [by apply curve_wrong_not_rsa|done]. }
  split; [exact Hrsa|]. split; [exact Hcurve|].
  rewrite Hrsa, Hcurve. intros [H1 H2].
  apply curve_wrong_not_rsa in H2. congruence.
Qed.

Lemma wrong_type_message_inj (s t : string) :
  wrong_type_message s = wrong_type_message t -> s = t.
Proof.
  unfold wrong_type_message. intros H.
  apply append_inj_l in H. by apply append_inj_r in H.
Qed.

(** X12.  The key-family check compares the lower-cased family of the key
    with the profile's [certificate_types] as they are spelled: a key of one
    of the five classes passes exactly when the profile lists [rsa],
    [ecdsa], [ed25519], [ed448] or [dsa] respectively, in lower case, and a
    key of no known class passes only if the profile lists the empty string.
    The message, when emitted, names the family returned by
    [_cert_type_string]. *)
Theorem wrong_type_iff (self : TLSProfiler) (certificate : Certificate)
    (ocsp_stapling : bool) :
  let P := target_profile self in
  let errors := (check_certificate_properties self certificate ocsp_stapling).1 in
  (forall c : KeyClass,
      isinstance (public_key certificate) c = true ->
      (wrong_type_message (family_of_class c) ∈ errors
       <-> profile_name_of_class c ∉ certificate_types P))
  /\ ((forall c : KeyClass, isinstance (public_key certificate) c = false) ->
      (wrong_type_message "" ∈ errors <-> "" ∉ certificate_types P))
  /\ (forall t : string,
        wrong_type_message t ∈ errors ->
        t = _cert_type_string (public_key certificate)).
Proof.
  intros P errors. unfold errors.
  assert (Hmember :
            forall t : string,
              wrong_type_message t
                ∈ (check_certificate_properties self certificate ocsp_stapling).1
              <-> (Py.lower (_cert_type_string (public_key certificate))
                     ∉ certificate_types P)
                  /\ t = _cert_type_string (public_key certificate)).
  { intros t. rewrite properties_errors_elem. fold P. split.
    - intros [[_ H] | [[Hnot H] | [[_ H] | [(_ & _ & H) | [[_ H] | [_ H]]]]]];
        try discriminate H.
      split; [done | by apply wrong_type_message_inj].
    - intros [Hnot ->]. right. left. done. }
  split; [|split].
  - intros c Hc. rewrite Hmember.
    destruct (public_key certificate), c; try discriminate Hc; cbn; tauto.
  - intros Hnone. rewrite Hmember.
    destruct (public_key certificate); cbn; try tauto.
    + discriminate (Hnone rsa_RSAPublicKey).
    + discriminate (Hnone ec_EllipticCurvePublicKey).
    + discriminate (Hnone ed25519_Ed25519PublicKey).
    + discriminate (Hnone ed448_Ed448PublicKey).
    + discriminate (Hnone dsa_DSAPublicKey).
  - intros t Ht. by apply Hmember in Ht as [_ ->].
Qed.

(** ** The vulnerability probes, when one fails *)

Lemma check_vulnerabilities_cases (self : TLSProfiler) :
  check_vulnerabilities self
  = match run_scan_command (scanner self) (server_info self)
            HeartbleedScanCommand with
    | inl e => (inl e, log_command HeartbleedScanCommand self)
    | inr heartbleed =>
        match run_scan_command (scanner self) (server_info self)
                OpenSslCcsInjectionScanCommand with
        | inl e =>
            (inl e,
             log_command OpenSslCcsInjectionScanCommand
               (log_command HeartbleedScanCommand self))
        | inr ccs =>
            match run_scan_command (scanner self) (server_info self)
                    RobotScanCommand with
            | inl e =>
                (inl e,
                 log_command RobotScanCommand
                   (log_command OpenSslCcsInjectionScanCommand
                      (log_command HeartbleedScanCommand self)))
            | inr robot =>
                (inr ((if is_vulnerable_to_heartbleed heartbleed
                       then [heartbleed_message] else [])
                      ++ (if is_vulnerable_to_ccs_injection ccs
                          then [ccs_injection_message] else [])
                      ++ (if bool_decide
                               (robot_result_enum robot
                                ∈ [VULNERABLE_WEAK_ORACLE; VULNERABLE_STRONG_ORACLE])
                          then [robot_message] else [])),
                 log_command RobotScanCommand
                   (log_command OpenSslCcsInjectionScanCommand
                      (log_command HeartbleedScanCommand self)))
            end
        end
    end.
Proof.
  destruct (run_scan_command (scanner self) (server_info self)
              HeartbleedScanCommand) as [e | heartbleed] eqn:Hh.
  { unfold check_vulnerabilities. by rewrite bind_eq, scan_eq, Hh. }
  destruct (run_scan_command (scanner self) (server_info self)
              OpenSslCcsInjectionScanCommand) as [e | ccs] eqn:Hc.
  { unfold check_vulnerabilities. rewrite bind_eq, scan_eq, Hh.
    rewrite bind_eq, scan_eq. cbn [scanner server_info log_command].
    by rewrite Hc. }
  destruct (run_scan_command (scanner self) (server_info self)
              RobotScanCommand) as [e | robot] eqn:Hr.
  { unfold check_vulnerabilities. rewrite bind_eq, scan_eq, Hh.
    rewrite bind_eq, scan_eq. cbn [scanner server_info log_command].
    rewrite Hc. rewrite bind_eq, scan_eq. cbn [scanner server_info log_command].
    by rewrite Hr. }
  by apply check_vulnerabilities_eq.
Qed.

(** X13.  The three probes are sent in the order Heartbleed, CCS
    injection, ROBOT, and the first one the scanner does not answer ends
    [check_vulnerabilities]: it raises that probe's exception, sends no
    later probe and returns no list, so findings of the earlier probes are
    lost.  It raises whenever one of the three probes does. *)
Theorem vulnerabilities_first_failure (self : TLSProfiler) :
  (forall e self',
      check_vulnerabilities self = (inl e, self') ->
      (run_scan_command (scanner self) (server_info self) HeartbleedScanCommand
       = inl e
       /\ scan_log self' = scan_log self ++ [HeartbleedScanCommand])
      \/ ((exists heartbleed,
              run_scan_command (scanner self) (server_info self)
                HeartbleedScanCommand = inr heartbleed)
          /\ run_scan_command (scanner self) (server_info self)
               OpenSslCcsInjectionScanCommand = inl e
          /\ scan_log self'
             = scan_log self
               ++ [HeartbleedScanCommand; OpenSslCcsInjectionScanCommand])
      \/ ((exists heartbleed,
              run_scan_command (scanner self) (server_info self)
                HeartbleedScanCommand = inr heartbleed)
          /\ (exists ccs,
                 run_scan_command (scanner self) (server_info self)
                   OpenSslCcsInjectionScanCommand = inr ccs)
          /\ run_scan_command (scanner self) (server_info self) RobotScanCommand
             = inl e
          /\ scan_log self'
             = scan_log self
               ++ [HeartbleedScanCommand; OpenSslCcsInjectionScanCommand;
                   RobotScanCommand]))
  /\ (forall e0,
        run_scan_command (scanner self) (server_info self) HeartbleedScanCommand
        = inl e0
        \/ run_scan_command (scanner self) (server_info self)
             OpenSslCcsInjectionScanCommand = inl e0
        \/ run_scan_command (scanner self) (server_info self) RobotScanCommand
           = inl e0 ->
        exists e self', check_vulnerabilities self = (inl e, self')).
Proof.
  rewrite check_vulnerabilities_cases.
  destruct (run_scan_command (scanner self) (server_info self)
              HeartbleedScanCommand) as [eh | heartbleed].
  { split.
    - intros e self' H. injection H as <- <-. left. split; reflexivity.
    - intros e0 _. eexists _, _. reflexivity. }
  destruct (run_scan_command (scanner self) (server_info self)
              OpenSslCcsInjectionScanCommand) as [ec | ccs].
  { split.
    - intros e self' H. injection H as <- <-. right. left.
      split; [by eexists|]. split; [reflexivity|].
      cbn. by rewrite <- app_assoc.
    - intros e0 _. eexists _, _. reflexivity. }
  destruct (run_scan_command (scanner self) (server_info self)
              RobotScanCommand) as [er | robot].
  { split.
    - intros e self' H. injection H as <- <-. right. right.
      split; [by eexists|]. split; [by eexists|]. split; [reflexivity|].
      cbn. by rewrite <- !app_assoc.
    - intros e0 _. eexists _, _. reflexivity. }
  split.
  - intros e self' H. discriminate H.
  - intros e0 [H | [H | H]]; discriminate H.
Qed.

(** X14.  When the three probes answer, the list of vulnerability errors
    is empty exactly when the server is open to neither Heartbleed nor CCS
    injection and the ROBOT verdict is neither of the two vulnerable
    ones. *)
Theorem vulnerabilities_empty_iff (self : TLSProfiler)
    (heartbleed : HeartbleedScanResult) (ccs : OpenSslCcsInjectionScanResult)
    (robot : RobotScanResult) :
  run_scan_command (scanner self) (server_info self) HeartbleedScanCommand
  = inr heartbleed ->
  run_scan_command (scanner self) (server_info self) OpenSslCcsInjectionScanCommand
  = inr ccs ->
  run_scan_command (scanner self) (server_info self) RobotScanCommand
  = inr robot ->
  exists (errors : list string) (self' : TLSProfiler),
    check_vulnerabilities self = (inr errors, self')
    /\ (errors = [] <->
        is_vulnerable_to_heartbleed heartbleed = false
        /\ is_vulnerable_to_ccs_injection ccs = false
        /\ robot_result_enum robot ≠ VULNERABLE_WEAK_ORACLE
        /\ robot_result_enum robot ≠ VULNERABLE_STRONG_ORACLE).
Proof.
  intros Hh Hc Hr. eexists _, _.
  split; [by apply check_vulnerabilities_eq|].
  rewrite !app_nil, !optional_message_nil, bool_decide_eq_false,
    !elem_of_cons, elem_of_nil.
  tauto.
Qed.

(** ** The whole evaluation, end to end *)

Lemma run_raises_with_check_certificate (set_iter : gset string -> list string)
    (self self' : TLSProfiler) (info : ServerConnectivityInfo) (e : Py.exn) :
  server_info self = Some info ->
  check_certificate self = (inl e, self') ->
  run set_iter self = (inl e, self').
Proof.
  intros Hinfo Hcert. unfold run. rewrite bind_eq. cbn [get_self].
  rewrite Hinfo. by rewrite bind_eq, Hcert.
Qed.

(** X15.  On a connected server, an exception of the certificate check
    ends [run]: with an empty certificate chain [run] raises [IndexError],
    and with a chain and a raw path-validation-error list that is not empty
    it raises [AttributeError].  In both cases no result is returned, the
    certificate scan is the only command sent, and no survey attribute is
    set. *)
Theorem run_raises_from_certificate (set_iter : gset string -> list string)
    (self : TLSProfiler) (info : ServerConnectivityInfo)
    (result : CertificateInfoScanResult) :
  server_info self = Some info ->
  run_scan_command (scanner self) (server_info self) CertificateInfoScanCommand
  = inr result ->
  received_certificate_chain result = []
  \/ path_validation_error_list result ≠ [] ->
  exists (e : Py.exn) (self' : TLSProfiler),
    run set_iter self = (inl e, self')
    /\ e = (match received_certificate_chain result with
            | [] => Py.IndexError "list index out of range"
            | _ :: _ =>
                Py.AttributeError "'generator' object has no attribute 'append'"
            end)
    /\ scan_log self' = scan_log self ++ [CertificateInfoScanCommand]
    /\ supported_ciphers self' = supported_ciphers self
    /\ supported_protocols self' = supported_protocols self
    /\ supported_key_exchange self' = supported_key_exchange self.
Proof.
  intros Hinfo Hscan Hcase.
  exists (match received_certificate_chain result with
          | [] => Py.IndexError "list index out of range"
          | _ :: _ =>
              Py.AttributeError "'generator' object has no attribute 'append'"
          end),
    (log_command CertificateInfoScanCommand self).
  split; [|by repeat split].
  apply (run_raises_with_check_certificate set_iter self _ info); [done|].
  rewrite (check_certificate_eq self result Hscan).
  destruct (received_certificate_chain result); [reflexivity|].
  destruct Hcase as [Hnil | Herrors]; [discriminate Hnil|].
  destruct (path_validation_error_list result); [done | reflexivity].
Qed.

Lemma check_vulnerabilities_returns_inv (self self' : TLSProfiler)
    (errors : list string) :
  check_vulnerabilities self = (inr errors, self') ->
  exists heartbleed ccs robot,
    run_scan_command (scanner self) (server_info self) HeartbleedScanCommand
    = inr heartbleed
    /\ run_scan_command (scanner self) (server_info self)
         OpenSslCcsInjectionScanCommand = inr ccs
    /\ run_scan_command (scanner self) (server_info self) RobotScanCommand
       = inr robot
    /\ errors
       = (if is_vulnerable_to_heartbleed heartbleed
          then [heartbleed_message] else [])
         ++ (if is_vulnerable_to_ccs_injection ccs
             then [ccs_injection_message] else [])
         ++ (if bool_decide (robot_result_enum robot
                             ∈ [VULNERABLE_WEAK_ORACLE; VULNERABLE_STRONG_ORACLE])
             then [robot_message] else []).
Proof.
  rewrite check_vulnerabilities_cases.
  destruct (run_scan_command (scanner self) (server_info self)
              HeartbleedScanCommand) as [e | heartbleed]; [discriminate|].
  destruct (run_scan_command (scanner self) (server_info self)
              OpenSslCcsInjectionScanCommand) as [e | ccs]; [discriminate|].
  destruct (run_scan_command (scanner self) (server_info self)
              RobotScanCommand) as [e | robot]; [discriminate|].
  intros H. injection H as <- _. by exists heartbleed, ccs, robot.
Qed.

(** X16.  Whenever [run] returns a result, the scanner had reported no raw
    path-validation error; the result's validation errors are the findings
    of the certificate validator; its [vulnerable] flag is set exactly when
    the server is open to Heartbleed or to CCS injection or has one of the
    two vulnerable ROBOT verdicts; and [run] leaves in [self] the profile,
    the scanner and the connection it found, with the three survey
    attributes set. *)
Theorem run_result (set_iter : gset string -> list string)
    (self self' : TLSProfiler) (r : TLSProfilerResult) :
  run set_iter self = (inr (Some r), self') ->
  exists (result : CertificateInfoScanResult)
         (heartbleed : HeartbleedScanResult)
         (ccs : OpenSslCcsInjectionScanResult) (robot : RobotScanResult),
    run_scan_command (scanner self) (server_info self) CertificateInfoScanCommand
    = inr result
    /\ run_scan_command (scanner self) (server_info self) HeartbleedScanCommand
       = inr heartbleed
    /\ run_scan_command (scanner self) (server_info self)
         OpenSslCcsInjectionScanCommand = inr ccs
    /\ run_scan_command (scanner self) (server_info self) RobotScanCommand
       = inr robot
    /\ path_validation_error_list result = []
    /\ validation_errors r = validation_findings result
    /\ (vulnerable r = true <->
        is_vulnerable_to_heartbleed heartbleed = true
        \/ is_vulnerable_to_ccs_injection ccs = true
        \/ robot_result_enum robot = VULNERABLE_WEAK_ORACLE
        \/ robot_result_enum robot = VULNERABLE_STRONG_ORACLE)
    /\ target_profile self' = target_profile self
    /\ scanner self' = scanner self
    /\ server_info self' = server_info self
    /\ server_error self' = server_error self
    /\ is_Some (supported_ciphers self')
    /\ is_Some (supported_protocols self')
    /\ is_Some (supported_key_exchange self').
Proof.
  intros Hrun.
  apply run_inv in Hrun
    as (info & validation & cert_profile & pub_key_type & self1 & self2
        & matcher & vulnerability & Hinfo & Hcert & Hsurvey & Hmatch & Hvuln & ->).
  apply check_certificate_inv in Hcert
    as (result & certificate & rest & Hscan & Hchain & Herrors & -> & Hprops & ->).
  apply scan_supported_ciphers_and_protocols_inv in Hsurvey
    as (ciphers & protocols & key_exchange & ->).
  pose proof (check_vulnerabilities_inv _ _ _ Hvuln) as ->.
  apply check_vulnerabilities_returns_inv in Hvuln
    as (heartbleed & ccs & robot & Hh & Hc & Hr & ->).
  exists result, heartbleed, ccs, robot.
  cbn [scanner server_info log_command] in Hh, Hc, Hr.
  split; [done|]. split; [done|]. split; [done|]. split; [done|].
  split; [done|]. split; [reflexivity|]. split.
  - cbn [vulnerable TLSProfilerResult_init].
    rewrite Nat.ltb_lt, !length_app.
    assert (Hrobot :
              bool_decide (robot_result_enum robot
                           ∈ [VULNERABLE_WEAK_ORACLE; VULNERABLE_STRONG_ORACLE])
              = true
              <-> robot_result_enum robot = VULNERABLE_WEAK_ORACLE
                  \/ robot_result_enum robot = VULNERABLE_STRONG_ORACLE).
    { rewrite bool_decide_eq_true, !elem_of_cons, elem_of_nil. tauto. }
    rewrite <- Hrobot.
    destruct (is_vulnerable_to_heartbleed heartbleed),
      (is_vulnerable_to_ccs_injection ccs),
      (bool_decide (robot_result_enum robot
                    ∈ [VULNERABLE_WEAK_ORACLE; VULNERABLE_STRONG_ORACLE]));
      cbn [length]; split; intros H; try lia; auto.
  - cbn. repeat split; by eexists.
Qed.

(** X17.  The survey followed by the matcher, on a server that answers
    the six cipher-suite commands: the matcher returns, and it flags a
    protocol exactly when the scan under that [SCAN_COMMANDS] name accepted
    at least one suite and the name is not in the profile's [tls_versions],
    and a cipher exactly when some scan accepted a suite of that OpenSSL
    name and the name is among neither the profile's [ciphersuites] nor its
    OpenSSL-named ciphers. *)
Theorem survey_then_matcher (set_iter : gset string -> list string)
    (self : TLSProfiler)
    (answers : CipherSuiteScanCommand -> CipherSuiteScanResult) :
  (forall s : gset string, set_iter s ≡ₚ elements s) ->
  (forall c, run_scan_command (scanner self) (server_info self) (CipherSuites c)
             = inr (answers c)) ->
  exists (self1 : TLSProfiler) (errors : list string),
    scan_supported_ciphers_and_protocols self = (inr tt, self1)
    /\ check_server_matches_profile set_iter self1 = (inr errors, self1)
    /\ forall e : string,
         e ∈ errors <->
         exists x : string,
           e = must_not_support x
           /\ ((exists c, (x, c) ∈ SCAN_COMMANDS
                          /\ (accepted_cipher_list (answers c) ≠ [])
                          /\ x ∉ tls_versions (target_profile self))
               \/ (exists c suite,
                      suite ∈ accepted_cipher_list (answers c)
                      /\ openssl_name suite = x
                      /\ (x ∉ ciphersuites (target_profile self))
                      /\ x ∉ ciphers_openssl (target_profile self))).
Proof.
  intros Hperm Hanswers.
  destruct (survey_members answers) as (Hciphers & Hprotocols & _).
  pose proof (scan_supported_ciphers_and_protocols_eq self answers Hanswers)
    as Hsurvey.
  set (final := foldl (survey_step answers) ([], [], []) SCAN_COMMANDS) in *.
  clearbody final.
  eexists _, _. split; [exact Hsurvey|].
  split; [by apply check_server_matches_profile_eq|].
  intros e. cbn [target_profile].
  rewrite elem_of_app, !list_elem_of_fmap.
  unfold illegal_protocols, illegal_ciphers.
  setoid_rewrite (elem_of_set_iter set_iter Hperm).
  setoid_rewrite elem_of_difference.
  setoid_rewrite elem_of_list_to_set.
  setoid_rewrite elem_of_app.
  split.
  - intros [(x & -> & Hx & Hnot) | (x & -> & Hx & Hnot)]; exists x;
      (split; [done|]).
    + left. apply Hprotocols in Hx as (c & Hc & Haccepted). by exists c.
    + right. apply Hciphers in Hx as (c & suite & Hsuite & Hname).
      exists c, suite. repeat split; try done; intros ?; apply Hnot; auto.
  - intros (x & -> & [(c & Hc & Haccepted & Hnot)
                     | (c & suite & Hsuite & Hname & Hnot1 & Hnot2)]).
    + left. exists x. split; [done|]. split; [|done].
      apply Hprotocols. by exists c.
    + right. exists x. split; [done|]. split.
      * apply Hciphers. by exists c, suite.
      * by intros [? | ?].
Qed.

(** * The further properties at concrete servers *)

(** X1 at the sample server: TLS 1.2 and TLS 1.3 are found, TLS 1.1 is
    not. *)
Lemma survey_collects_witness :
  (forall c, run_scan_command (scanner (connected_profiler []))
               (server_info (connected_profiler [])) (CipherSuites c)
             = inr (sample_answers [] (CipherSuites c)))
  /\ exists (self' : TLSProfiler) (protocols : gset string),
       scan_supported_ciphers_and_protocols (connected_profiler [])
       = (inr tt, self')
       /\ supported_protocols self' = Some protocols
       /\ "TLSv1.2" ∈ protocols
       /\ "TLSv1.1" ∉ protocols.
Proof.
  split; [intros c; reflexivity|].
  destruct (survey_collects (connected_profiler [])
              (fun c => sample_answers [] (CipherSuites c))
              (fun c => eq_refl))
    as (self' & ciphers & protocols & key_exchange & Hrun & _ & Hprotocols & _
        & _ & Hmember & _).
  exists self', protocols. split; [exact Hrun|]. split; [exact Hprotocols|].
  split.
  - apply Hmember. exists Tlsv12ScanCommand. split; [|discriminate].
    unfold SCAN_COMMANDS. rewrite !elem_of_cons. auto 10.
  - intros (c & Hc & Haccepted)%Hmember.
    unfold SCAN_COMMANDS in Hc. rewrite !elem_of_cons, elem_of_nil in Hc.
    destruct Hc as [Hc | [Hc | [Hc | [Hc | [Hc | [Hc | []]]]]]];
      try discriminate Hc.
    injection Hc as ->. by apply Haccepted.
Defined.

(** X2 at the sample server. *)
Lemma survey_invariants_witness :
  exists self' : TLSProfiler,
    scan_supported_ciphers_and_protocols (connected_profiler []) = (inr tt, self')
    /\ exists (ciphers protocols : gset string)
              (key_exchange : list (TempKeyInfo * string)),
         supported_ciphers self' = Some ciphers
         /\ supported_protocols self' = Some protocols
         /\ supported_key_exchange self' = Some key_exchange
         /\ (forall info x, (info, x) ∈ key_exchange -> x ∈ ciphers)
         /\ (forall name, name ∈ protocols -> name ∈ SCAN_COMMANDS.*1)
         /\ (protocols = ∅ <-> ciphers = ∅).
Proof.
  pose proof (scan_supported_ciphers_and_protocols_eq (connected_profiler [])
                (fun c => sample_answers [] (CipherSuites c))
                (fun c => eq_refl)) as Hrun.
  eexists. split; [exact Hrun|].
  exact (survey_invariants (connected_profiler []) _ tt
           (fun c => sample_answers [] (CipherSuites c))
           (fun c => eq_refl) Hrun).
Defined.

(** X3 at a scanner whose TLS 1.1 survey times out: three commands are
    answered, the fourth raises, nothing is stored. *)
Lemma survey_failure_witness :
  run_scan_command (scanner flaky_profiler) (server_info flaky_profiler)
    (CipherSuites Tlsv11ScanCommand)
  = inl (Py.ScannerError "timed out")
  /\ exists e self',
       scan_supported_ciphers_and_protocols flaky_profiler = (inl e, self')
       /\ exists before item after,
            SCAN_COMMANDS = before ++ item :: after
            /\ run_scan_command (scanner flaky_profiler)
                 (server_info flaky_profiler) (CipherSuites item.2) = inl e
            /\ scan_log self'
               = scan_log flaky_profiler
                 ++ (CipherSuites <$> (before ++ [item]).*2)
            /\ supported_ciphers self' = None
            /\ supported_protocols self' = None.
Proof.
  split; [reflexivity|].
  destruct (survey_failure flaky_profiler) as [Hraises Hshape].
  destruct (Hraises Tlsv11ScanCommand (Py.ScannerError "timed out") eq_refl)
    as (e & self' & Hrun).
  exists e, self'. split; [exact Hrun|].
  destruct (Hshape e self' Hrun)
    as (before & item & after & Hsplit & _ & Hitem & Hlog & Hc & Hp & _).
  exists before, item, after. repeat split; assumption.
Defined.

(** X5 at scenario A, where the server is not within the profile. *)
Lemma matcher_empty_iff_witness :
  supported_protocols scenario_A = Some {[ "TLSv1.2"; "TLSv1.3"; "TLSv1.0" ]}
  /\ supported_ciphers scenario_A = Some {[ "X"; "Y" ]}
  /\ exists errors : list string,
       check_server_matches_profile elements scenario_A = (inr errors, scenario_A)
       /\ length errors
          = (size (({[ "TLSv1.2"; "TLSv1.3"; "TLSv1.0" ]} : gset string)
                   ∖ list_to_set ["TLSv1.2"; "TLSv1.3"])
             + size (({[ "X"; "Y" ]} : gset string)
                     ∖ list_to_set (["X"] ++ [])))%nat.
Proof.
  split; [reflexivity|]. split; [reflexivity|].
  destruct (matcher_empty_iff elements scenario_A
              {[ "TLSv1.2"; "TLSv1.3"; "TLSv1.0" ]} {[ "X"; "Y" ]}
              elements_is_an_order eq_refl eq_refl)
    as (errors & Hrun & _ & Hlength).
  exists errors. split; [exact Hrun | exact Hlength].
Defined.

(** X7 at a server that sends no certificate. *)
Lemma check_certificate_empty_chain_witness :
  run_scan_command (scanner chainless_profiler) (server_info chainless_profiler)
    CertificateInfoScanCommand
  = inr chainless_info
  /\ received_certificate_chain chainless_info = []
  /\ check_certificate chainless_profiler
     = (inl (Py.IndexError "list index out of range"),
        log_command CertificateInfoScanCommand chainless_profiler).
Proof.
  split; [reflexivity|]. split; [reflexivity|].
  apply (check_certificate_empty_chain chainless_profiler chainless_info).
  - reflexivity.
  - reflexivity.
Defined.

(** X8 at the sample server, whose list is not empty: one trust store
    fails and there is a single SCT. *)
Lemma validation_clean_iff_witness :
  path_validation_error_list (sample_certificate_info []) = []
  /\ exists (validation profile : list string) (pub_key_type : string),
       check_certificate (connected_profiler [])
       = (inr (validation, profile, pub_key_type),
          log_command CertificateInfoScanCommand (connected_profiler []))
       /\ (length validation
           <= length (path_validation_result_list (sample_certificate_info [])) + 5)%nat.
Proof.
  split; [reflexivity|].
  destruct (validation_clean_iff (connected_profiler [])
              (sample_certificate_info []) (sample_certificate 90) []
              eq_refl eq_refl eq_refl)
    as (validation & profile & pub_key_type & Hrun & _ & Hlength & _).
  exists validation, profile, pub_key_type. split; [exact Hrun | exact Hlength].
Defined.

(** X9 at the sample server, which reports one SCT. *)
Lemma sct_boundary_witness :
  leaf_certificate_signed_certificate_timestamps_count (sample_certificate_info [])
  < 2
  /\ exists (validation profile : list string) (pub_key_type : string),
       check_certificate (connected_profiler [])
       = (inr (validation, profile, pub_key_type),
          log_command CertificateInfoScanCommand (connected_profiler []))
       /\ last validation = Some (sct_message 1).
Proof.
  split; [reflexivity|].
  destruct (sct_boundary (connected_profiler [])
              (sample_certificate_info []) (sample_certificate 90) []
              eq_refl eq_refl eq_refl)
    as (validation & profile & pub_key_type & Hrun & _ & Hlast).
  exists validation, profile, pub_key_type. split; [exact Hrun|].
  apply Hlast. reflexivity.
Defined.

(** X13 at a scanner whose CCS-injection probe fails: ROBOT is never
    sent. *)
Lemma vulnerabilities_first_failure_witness :
  run_scan_command (scanner flaky_profiler) (server_info flaky_profiler)
    OpenSslCcsInjectionScanCommand
  = inl (Py.ScannerError "connection reset")
  /\ exists e self',
       check_vulnerabilities flaky_profiler = (inl e, self')
       /\ e = Py.ScannerError "connection reset"
       /\ scan_log self' = [HeartbleedScanCommand; OpenSslCcsInjectionScanCommand].
Proof.
  split; [reflexivity|].
  destruct (vulnerabilities_first_failure flaky_profiler) as [Hshape Hraises].
  destruct (Hraises (Py.ScannerError "connection reset")
              (or_intror (or_introl eq_refl)))
    as (e & self' & Hrun).
  exists e, self'. split; [exact Hrun|].
  destruct (Hshape e self' Hrun)
    as [[Hh _] | [(_ & Hc & Hlog) | (_ & [ccs Hc] & _)]].
  - discriminate Hh.
  - split; [|exact Hlog]. injection Hc as <-. reflexivity.
  - discriminate Hc.
Defined.

(** X14 at the sample server, which is open to CCS injection and ROBOT. *)
Lemma vulnerabilities_empty_iff_witness :
  exists (errors : list string) (self' : TLSProfiler),
    check_vulnerabilities (connected_profiler []) = (inr errors, self')
    /\ (errors = [] <->
        false = false
        /\ true = false
        /\ VULNERABLE_WEAK_ORACLE ≠ VULNERABLE_WEAK_ORACLE
        /\ VULNERABLE_WEAK_ORACLE ≠ VULNERABLE_STRONG_ORACLE).
Proof.
  apply (vulnerabilities_empty_iff (connected_profiler [])
           (sample_answers [] HeartbleedScanCommand)
           (sample_answers [] OpenSslCcsInjectionScanCommand)
           (sample_answers [] RobotScanCommand)).
  - reflexivity.
  - reflexivity.
  - reflexivity.
Defined.

(** X15 at a server with one raw path-validation error. *)
Lemma run_raises_from_certificate_witness :
  server_info (connected_profiler [ {| error_message := "unable to get issuer" |} ])
  = Some sample_handle
  /\ path_validation_error_list
       (sample_certificate_info [ {| error_message := "unable to get issuer" |} ])
     ≠ []
  /\ exists (e : Py.exn) (self' : TLSProfiler),
       run elements
         (connected_profiler [ {| error_message := "unable to get issuer" |} ])
       = (inl e, self')
       /\ e = Py.AttributeError "'generator' object has no attribute 'append'"
       /\ scan_log self' = [CertificateInfoScanCommand].
Proof.
  split; [reflexivity|]. split; [discriminate|].
  assert (Hcase :
            received_certificate_chain
              (sample_certificate_info [ {| error_message := "unable to get issuer" |} ])
            = []
            \/ path_validation_error_list
                 (sample_certificate_info [ {| error_message := "unable to get issuer" |} ])
               ≠ [])
    by (right; discriminate).
  destruct (run_raises_from_certificate elements
              (connected_profiler [ {| error_message := "unable to get issuer" |} ])
              sample_handle
              (sample_certificate_info [ {| error_message := "unable to get issuer" |} ])
              eq_refl eq_refl Hcase)
    as (e & self' & Hrun & He & Hlog & _).
  exists e, self'. split; [exact Hrun|]. split; [exact He | exact Hlog].
Defined.

(** X16 at the sample server. *)
Lemma run_result_witness :
  run elements (connected_profiler []) = (inr (Some sample_result), sample_final)
  /\ exists (result : CertificateInfoScanResult),
       run_scan_command (scanner (connected_profiler []))
         (server_info (connected_profiler [])) CertificateInfoScanCommand
       = inr result
       /\ path_validation_error_list result = []
       /\ validation_errors sample_result = validation_findings result
       /\ target_profile sample_final = target_profile (connected_profiler []).
Proof.
  assert (Hrun : run elements (connected_profiler [])
                 = (inr (Some sample_result), sample_final)).
  { vm_compute. reflexivity. }
  split; [exact Hrun|].
  destruct (run_result elements (connected_profiler []) sample_final
              sample_result Hrun)
    as (result & heartbleed & ccs & robot & Hscan & _ & _ & _ & Herrors
        & Hvalidation & _ & Hprofile & _).
  exists result. repeat split; assumption.
Defined.

(** X17 at the sample server under the [modern] profile: TLS 1.2 and its
    cipher are flagged. *)
Lemma survey_then_matcher_witness :
  (forall c, run_scan_command (scanner (connected_profiler []))
               (server_info (connected_profiler [])) (CipherSuites c)
             = inr (sample_answers [] (CipherSuites c)))
  /\ exists (self1 : TLSProfiler) (errors : list string),
       scan_supported_ciphers_and_protocols (connected_profiler [])
       = (inr tt, self1)
       /\ check_server_matches_profile elements self1 = (inr errors, self1)
       /\ must_not_support "TLSv1.2" ∈ errors
       /\ must_not_support "AES128-SHA" ∈ errors.
Proof.
  split; [intros c; reflexivity|].
  destruct (survey_then_matcher elements (connected_profiler [])
              (fun c => sample_answers [] (CipherSuites c))
              elements_is_an_order (fun c => eq_refl))
    as (self1 & errors & Hsurvey & Hmatch & Hmember).
  exists self1, errors. split; [exact Hsurvey|]. split; [exact Hmatch|].
  split; apply Hmember.
  - exists "TLSv1.2". split; [reflexivity|]. left. exists Tlsv12ScanCommand.
    split; [|split; [discriminate|]].
    + unfold SCAN_COMMANDS. rewrite !elem_of_cons. auto 10.
    + cbn. rewrite list_elem_of_singleton. discriminate.
  - exists "AES128-SHA". split; [reflexivity|]. right.
    exists Tlsv12ScanCommand,
      {| openssl_name := "AES128-SHA"; dh_info := None |}.
    split; [apply list_elem_of_here|]. split; [reflexivity|]. split.
    + cbn. rewrite !elem_of_cons, elem_of_nil.
      intros [H | [H | [H | []]]]; discriminate H.
    + cbn. apply not_elem_of_nil.
Defined.
